(** * sgqlc.types: schema registry, wrapper factory and JSON codec

    A shallow embedding of [sgqlc/types/__init__.py].  Python objects are
    modelled by first-order data:

    - a Python [dict] / [OrderedDict] is an insertion-ordered association
      list ([dict]), with [dict_get], [dict_set], [dict_setdefault],
      [dict_update] and [dict_del] behaving as the Python operations do;
    - raised exceptions are values of [exn], and a call that may raise
      returns [except A];
    - GraphQL classes ([Scalar], [Enum], [Union], the container classes and
      the wrappers built by [non_null] / [list_of]) are terms of [gtype];
    - every Python value that can flow through the codec (JSON data and
      decoded native objects alike) is a term of [value];
    - a class object that needs identity (in the registry and in the
      wrapper cache) is a [PyClass], which carries its identity; the
      registries, which are mutated, live in a store ([World]) and are
      addressed by reference. *)

From Stdlib Require Import String Ascii List ZArith Bool Arith Lia.
Import ListNotations.
Local Open Scope string_scope.
Local Open Scope list_scope.

Set Implicit Arguments.
Set Warnings "-register-all".

(** ** Insertion-ordered dictionaries *)

Module Dict.
Section Ops.
Variable V : Type.

Definition dict := list (string * V).

Fixpoint dict_get (d : dict) (k : string) : option V :=
  match d with
  | [] => None
  | (k', v) :: r => if String.eqb k' k then Some v else dict_get r k
  end.

Definition dict_mem (d : dict) (k : string) : bool :=
  match dict_get d k with Some _ => true | None => false end.

(** [d[k] = v]: an existing key keeps its position. *)
Fixpoint dict_set (d : dict) (k : string) (v : V) : dict :=
  match d with
  | [] => [(k, v)]
  | (k', v') :: r =>
      if String.eqb k' k then (k', v) :: r else (k', v') :: dict_set r k v
  end.

(** [d.setdefault(k, v)] returns the value now bound and the dict. *)
Definition dict_setdefault (d : dict) (k : string) (v : V) : V * dict :=
  match dict_get d k with
  | Some v' => (v', d)
  | None => (v, dict_set d k v)
  end.

(** [d.update(other)] *)
Definition dict_update (d other : dict) : dict :=
  fold_left (fun acc kv => dict_set acc (fst kv) (snd kv)) other d.

(** [del d[k]]; [None] stands for the [KeyError]. *)
Fixpoint dict_del (d : dict) (k : string) : option dict :=
  match d with
  | [] => None
  | (k', v') :: r =>
      if String.eqb k' k then Some r
      else option_map (cons (k', v')) (dict_del r k)
  end.

Definition dict_keys (d : dict) : list string := map fst d.
End Ops.
End Dict.
Export Dict.

(** ** GraphQL classes *)

(** [Scalar.converter]: the base class passes the value through, [Boolean]
    uses Python's [bool]; every other converter ([int], [float], [str], or
    one supplied by a user-defined scalar) is referred to by name and
    interpreted by the environment given to the codec. *)
Inductive converter : Type :=
| conv_pass
| conv_bool
| conv_named (fn : string).

Inductive gtype : Type :=
| TScalar (name : string) (conv : converter)
| TEnum (name : string) (choices : list string)
| TUnion (name : string) (types : list gtype)
| TContainer (kind : string) (name : string) (fields : list (string * Field))
| TNonNull (t : gtype)
| TListOf (t : gtype)
with Field : Type :=
| mkField (name : string) (graphql_name : string) (type : gtype).

Definition field_name (f : Field) : string :=
  match f with mkField n _ _ => n end.
Definition field_graphql_name (f : Field) : string :=
  match f with mkField _ g _ => g end.
Definition field_type (f : Field) : gtype :=
  match f with mkField _ _ t => t end.

(** [cls.__name__]; the wrappers are named by [non_null] and [list_of]. *)
Fixpoint type_name (t : gtype) : string :=
  match t with
  | TScalar n _ => n
  | TEnum n _ => n
  | TUnion n _ => n
  | TContainer _ n _ => n
  | TNonNull t' => type_name t' ++ "!"
  | TListOf t' => "[" ++ type_name t' ++ "]"
  end.

(** [cls.__kind__]; a wrapper subclasses its base and inherits the kind. *)
Fixpoint type_kind (t : gtype) : string :=
  match t with
  | TScalar _ _ => "scalar"
  | TEnum _ _ => "enum"
  | TUnion _ _ => "union"
  | TContainer k _ _ => k
  | TNonNull t' => type_kind t'
  | TListOf t' => type_kind t'
  end.

(** An entry of a selection list: [sel.__field__] and [sel.__alias__]. *)
Record Selection : Type := mkSelection {
  sel_field : Field;
  sel_alias : option string
}.

(** ** Python values *)

(** JSON data and native objects share one universe, as they do in Python:
    a pass-through scalar returns the very JSON value it was given.  A
    float is kept as its IEEE-754 binary64 bit pattern; no arithmetic is
    done on it.  [VInst] is an instance of a container class: the name and
    field table of its class, the attributes set on it, and the three
    slots [__fields_cache__], [__json_data__] and [__selection_list__].
    The attributes are those set through [setattr]; a container class is
    taken to carry no public attribute of its own besides its fields
    (which the metaclass removes from the class), and no field or alias
    is named after one of the three slots, so that [hasattr] and
    [getattr] on an instance read [attrs] alone. *)
Inductive value : Type :=
| VNone
| VBool (b : bool)
| VInt (z : Z)
| VFloat (bits : Z)
| VStr (s : string)
| VList (l : list value)
| VDict (d : list (string * value))
| VInst (cls_name : string) (cls_fields : list (string * Field))
        (attrs : list (string * value))
        (fields_cache : list (string * Field))
        (json_data : value)
        (selection_list : option (list Selection)).

(** ** Exceptions *)

Inductive exn : Type :=
| ValueError_null (name : string)
    (* non_null: name + ' received null value' *)
| ValueError_enum (cls : string) (v : value)
    (* Enum: '%s does not accept value %s' *)
| ValueError_selection (cls : string) (attr : string) (raw : value) (cause : exn)
    (* ContainerType: '%s selection %r: %r (%s)' ... from exc *)
| ValueError_registered (name : string)
    (* Schema.__iadd__: '%s already has %s=%s' *)
| TypeError
| UnboundLocalError
| AttributeError
| KeyError (key : string)
| AssertionError.

Inductive except (A : Type) : Type :=
| Ok (a : A)
| Raise (e : exn).
Arguments Ok {A} a.
Arguments Raise {A} e.

Definition bind {A B} (m : except A) (f : A -> except B) : except B :=
  match m with
  | Ok a => f a
  | Raise e => Raise e
  end.

Notation "'do' x <- m ; k" := (bind m (fun x => k))
  (at level 10, x name, m at level 100, k at level 200).

(** A comprehension [[f(x) for x in xs]]: the first exception aborts it. *)
Fixpoint mapM {A B} (f : A -> except B) (xs : list A) : except (list B) :=
  match xs with
  | [] => Ok []
  | x :: r =>
      do y <- f x;
      do ys <- mapM f r;
      Ok (y :: ys)
  end.

(** ** Python operators on values *)

(** [bool(x)]: truth value testing.  A container instance defines
    [__len__] (the number of cached fields) and no [__bool__]. *)
Definition truthy (v : value) : bool :=
  match v with
  | VNone => false
  | VBool b => b
  | VInt z => negb (Z.eqb z 0)
  | VFloat bits => negb (Z.eqb (Z.land bits (Z.ones 63)) 0)
  | VStr s => negb (String.eqb s "")
  | VList l => match l with [] => false | _ => true end
  | VDict d => match d with [] => false | _ => true end
  | VInst _ _ _ cache _ _ => match cache with [] => false | _ => true end
  end.

(** [sub in s] on two [str]. *)
Fixpoint str_contains (sub s : string) : bool :=
  String.prefix sub s ||
  match s with
  | EmptyString => false
  | String _ r => str_contains sub r
  end.

(** The characters of a [str], each a [str] of length one. *)
Fixpoint str_chars (s : string) : list string :=
  match s with
  | EmptyString => []
  | String c r => String c EmptyString :: str_chars r
  end.

Definition is_str (k : string) (v : value) : bool :=
  match v with VStr s => String.eqb s k | _ => false end.

(** [k in x] for a [str] key [k]. *)
Definition py_contains (x : value) (k : string) : except bool :=
  match x with
  | VDict d => Ok (dict_mem d k)
  | VList l => Ok (existsb (is_str k) l)
  | VStr s => Ok (str_contains k s)
  | VInst _ _ attrs _ _ _ => Ok (dict_mem attrs k)   (* hasattr(self, k) *)
  | VNone | VBool _ | VInt _ | VFloat _ => Raise TypeError
  end.

(** [x[k]] for a [str] key [k]. *)
Definition py_getitem (x : value) (k : string) : except value :=
  match x with
  | VDict d =>
      match dict_get d k with Some v => Ok v | None => Raise (KeyError k) end
  | VInst _ _ attrs _ _ _ =>
      match dict_get attrs k with Some v => Ok v | None => Raise (KeyError k) end
  | _ => Raise TypeError
  end.

(** [for v in x]. *)
Definition py_iter (x : value) : except (list value) :=
  match x with
  | VList l => Ok l
  | VStr s => Ok (map VStr (str_chars s))
  | VDict d => Ok (map VStr (dict_keys d))
  | VInst _ _ _ cache _ _ => Ok (map VStr (dict_keys cache))
  | VNone | VBool _ | VInt _ | VFloat _ => Raise TypeError
  end.

(** ** Decoding: calling a class on JSON data *)

Section Codec.
(** The converters referred to by name: [int], [float], [str], ... *)
Variable named_converter : string -> value -> except value.

Definition run_converter (c : converter) (v : value) : except value :=
  match c with
  | conv_pass => Ok v
  | conv_bool => Ok (VBool (truthy v))
  | conv_named fn => named_converter fn v
  end.

(** [Scalar.__new__] *)
Definition Scalar_new (c : converter) (json_data : value) : except value :=
  match json_data with
  | VNone => Ok VNone
  | _ => run_converter c json_data
  end.

(** [Enum.__new__] *)
Definition Enum_new (name : string) (choices : list string)
           (json_data : value) : except value :=
  match json_data with
  | VNone => Ok VNone
  | _ => if existsb (fun c => is_str c json_data) choices
         then Ok json_data
         else Raise (ValueError_enum name json_data)
  end.

(** The local function [set_field] of [ContainerType.__init__].  The
    membership test is outside the [try]; inside it, a failure of
    [json_data[graphql_name]] leaves [value] unbound, so formatting the
    message in the handler raises in turn.  [call_type] is
    [field.type(value)]. *)
Definition set_field (cls_name : string) (json_data : value)
           (name : string) (field : Field)
           (call_type : value -> except value)
           (st : dict value * dict Field) : except (dict value * dict Field) :=
  let graphql_name := field_graphql_name field in
  do present <- py_contains json_data graphql_name;
  if present then
    match py_getitem json_data graphql_name with
    | Raise _ => Raise UnboundLocalError
    | Ok raw =>
        match call_type raw with
        | Raise exc => Raise (ValueError_selection cls_name name raw exc)
        | Ok v => Ok (dict_set (fst st) name v, dict_set (snd st) name field)
        end
    end
  else Ok st.

Fixpoint set_fields (cls_name : string) (json_data : value)
         (entries : list (string * Field * (value -> except value)))
         (st : dict value * dict Field) : except (dict value * dict Field) :=
  match entries with
  | [] => Ok st
  | (name, field, call_type) :: r =>
      do st' <- set_field cls_name json_data name field call_type st;
      set_fields cls_name json_data r st'
  end.

(** [ContainerType.__init__]; [entries] lists, in order, the calls
    [set_field(name, field)] made by whichever loop applies. *)
Definition ContainerType_init (cls_name : string)
           (cls_fields : list (string * Field))
           (json_data : value) (selection_list : option (list Selection))
           (entries : list (string * Field * (value -> except value)))
  : except value :=
  match json_data with
  | VNone =>
      Ok (VInst cls_name cls_fields [] [] (VDict []) selection_list)
  | _ =>
      do st <- set_fields cls_name json_data entries ([], []);
      Ok (VInst cls_name cls_fields (fst st) (snd st) json_data selection_list)
  end.

(** [t(json_data)]: a call without selection list.  This is the call made
    for every field ([field.type(value)]) and by the wrapper of
    [non_null]. *)
Fixpoint call0 (t : gtype) (json_data : value) {struct t} : except value :=
  match t with
  | TScalar _ c => Scalar_new c json_data
  | TEnum n choices => Enum_new n choices json_data
  | TUnion _ _ => Raise TypeError      (* object() takes no arguments *)
  | TContainer _ n fields =>
      ContainerType_init n fields json_data None
        ((fix each (fs : list (string * Field)) :=
            match fs with
            | [] => []
            | (_, f) :: r =>
                (field_name f, f, call0 (field_type f)) :: each r
            end) fields)
  | TNonNull t' =>
      match json_data with
      | VNone => Raise (ValueError_null (type_name t' ++ "!"))
      | _ => call0 t' json_data
      end
  | TListOf t' =>
      match json_data with
      | VNone => Ok VNone
      | _ => do vs <- py_iter json_data;
             do rs <- mapM (call0 t') vs;
             Ok (VList rs)
      end
  end.

(** [sel.__alias__ or field.name] *)
Definition selection_name (sel : Selection) : string :=
  match sel_alias sel with
  | Some a => if String.eqb a "" then field_name (sel_field sel) else a
  | None => field_name (sel_field sel)
  end.

Definition class_entries (fields : list (string * Field))
  : list (string * Field * (value -> except value)) :=
  map (fun kf => (field_name (snd kf), snd kf, call0 (field_type (snd kf))))
      fields.

Definition selection_entries (sels : list Selection)
  : list (string * Field * (value -> except value)) :=
  map (fun sel => (selection_name sel, sel_field sel,
                   call0 (field_type (sel_field sel)))) sels.

(** The two loops of [ContainerType.__init__]: over the selection list
    when there is one, over the fields of the class otherwise. *)
Definition init_entries (fields : list (string * Field))
           (selection_list : option (list Selection))
  : list (string * Field * (value -> except value)) :=
  match selection_list with
  | Some sels => selection_entries sels
  | None => class_entries fields
  end.

(** [t(json_data, selection_list)] *)
Fixpoint call (t : gtype) (json_data : value)
         (selection_list : option (list Selection)) {struct t}
  : except value :=
  match t with
  | TScalar _ c => Scalar_new c json_data
  | TEnum n choices => Enum_new n choices json_data
  | TUnion _ _ => Raise TypeError
  | TContainer _ n fields =>
      ContainerType_init n fields json_data selection_list
        (init_entries fields selection_list)
  | TNonNull t' =>
      match json_data with
      | VNone => Raise (ValueError_null (type_name t' ++ "!"))
      | _ => call0 t' json_data
      end
  | TListOf t' =>
      match json_data with
      | VNone => Ok VNone
      | _ => do vs <- py_iter json_data;
             do rs <- mapM (fun v => call t' v selection_list) vs;
             Ok (VList rs)
      end
  end.

(** ** Encoding: [__to_json_value__] *)

(** [t.__to_json_value__(s)] for a [str] value [s].  A wrapper made by
    [non_null] inherits the method of its base class; the one made by
    [list_of] maps over the iteration of its argument; a container class
    reads the field table of [type(s)], which [str] does not have. *)
Fixpoint to_json_str (t : gtype) (s : string) {struct t} : except value :=
  match t with
  | TScalar _ _ => Ok (VStr s)
  | TEnum _ _ => Ok (VStr s)
  | TUnion _ _ => Raise AttributeError
  | TContainer _ _ _ => Raise AttributeError
  | TNonNull t' => to_json_str t' s
  | TListOf t' =>
      do rs <- mapM (to_json_str t') (str_chars s);
      Ok (VList rs)
  end.

(** [t.__to_json_value__(v)].  For a container class this is
    [ContainerTypeMeta.__to_json_value__(v.__class__, v)]: the walk is
    over the field table of the class of [v], testing [name in v]
    ([hasattr]) and reading [v[name]] ([getattr]). *)
Fixpoint to_json (v : value) {struct v} : gtype -> except value :=
  fix on_type (t : gtype) {struct t} : except value :=
    match t with
    | TScalar _ _ => Ok v
    | TEnum _ _ => Ok v
    | TUnion _ _ => Raise AttributeError
    | TNonNull t' => on_type t'
    | TListOf t' =>
        match v with
        | VNone => Ok VNone
        | VList l =>
            do rs <- (fix each (xs : list value) : except (list value) :=
                        match xs with
                        | [] => Ok []
                        | x :: r =>
                            do y <- to_json x t';
                            do ys <- each r;
                            Ok (y :: ys)
                        end) l;
            Ok (VList rs)
        | VStr s =>
            do rs <- mapM (to_json_str t') (str_chars s);
            Ok (VList rs)
        | VDict d =>
            do rs <- mapM (to_json_str t') (dict_keys d);
            Ok (VList rs)
        | VInst _ _ _ cache _ _ =>
            do rs <- mapM (to_json_str t') (dict_keys cache);
            Ok (VList rs)
        | VBool _ | VInt _ | VFloat _ => Raise TypeError
        end
    | TContainer _ _ _ =>
        match v with
        | VNone => Ok VNone
        | VInst _ cls_fields attrs _ _ _ =>
            do d <- (fix walk (fs : list (string * Field)) (d : dict value)
                     : except (dict value) :=
                       match fs with
                       | [] => Ok d
                       | (name, f) :: r =>
                           match
                             (fix look (al : list (string * value))
                              : option (except value) :=
                                match al with
                                | [] => None
                                | (k, x) :: al' =>
                                    if String.eqb k name
                                    then Some (to_json x (field_type f))
                                    else look al'
                                end) attrs
                           with
                           | None => walk r d
                           | Some res =>
                               do j <- res;
                               walk r (dict_set d (field_graphql_name f) j)
                           end
                       end) cls_fields [];
            Ok (VDict d)
        | _ => Raise AttributeError
        end
    end.

(** The loop of [ContainerTypeMeta.__to_json_value__] over the field
    table, as a function of its own: [name in value] and [value[name]]
    read the attributes of the instance. *)
Definition attr_to_json (attrs : dict value) (name : string) (t : gtype)
  : option (except value) :=
  match dict_get attrs name with
  | Some x => Some (to_json x t)
  | None => None
  end.

Fixpoint walk_fields (attrs : dict value) (fs : list (string * Field))
         (d : dict value) : except (dict value) :=
  match fs with
  | [] => Ok d
  | (name, f) :: r =>
      match attr_to_json attrs name (field_type f) with
      | None => walk_fields attrs r d
      | Some res =>
          do j <- res;
          walk_fields attrs r (dict_set d (field_graphql_name f) j)
      end
  end.

(** ** Container instances *)

(** The names under which [__init__] keeps the selection list, the field
    cache and the backing store.  [ContainerType] declares no
    [__slots__]: the three are entries of the instance dictionary, bound
    by [object.__setattr__] like any other attribute. *)
Definition is_slot (name : string) : bool :=
  String.eqb name "__json_data__" || String.eqb name "__fields_cache__"
  || String.eqb name "__selection_list__".

(** The names that [object.__setattr__] does not bind in the instance
    dictionary: each is a descriptor of [object] or of the first class
    without [__slots__]. *)
Definition is_reserved (name : string) : bool :=
  String.eqb name "__class__" || String.eqb name "__dict__"
  || String.eqb name "__weakref__".

Definition is_special (name : string) : bool := is_slot name || is_reserved name.

(** What a call of [ContainerType.__setattr__] leaves behind.

    - [Finished self' raised]: the instance is now [self'], and the call
      returned ([None]) or raised.
    - [Forwarded self' inner]: the attribute is set, giving [self'],
      whose backing store is itself a container instance.  The item
      assignment on it is [__setitem__], that is
      [setattr(store, key, json_value)], another call of this method:
      [inner] is its outcome.  The store is afterwards what [inner]
      leaves, and the call raises what [inner] raises.
    - [StoreSetItem self' key json_value]: the instance is now [self'],
      and the call ends with the item assignment
      [self'.__json_data__[key] = json_value], which is not carried out
      here.  This is the outcome when the call has just made the
      assigned value the backing store and the name is a key of the
      field cache all the same: the value converted and the store
      written to are then one object, which may come to hold itself,
      and on an instance the assignment may never return.
    - [SlotRebound slot v rest]: the instance dictionary now binds
      [slot] to [v], a plain value where an instance of this model has a
      field table or a selection list; everything else is as [rest]
      tells, the instance in [rest] being read with that entry replaced.
    - [DictReplaced d raised]: the instance dictionary is now [d]: the
      attributes, the cache, the store and the selection list that the
      instance had are gone, and it has the entries of [d] instead. *)
Inductive setattr_outcome : Type :=
| Finished (self' : value) (raised : option exn)
| Forwarded (self' : value) (inner : setattr_outcome)
| StoreSetItem (self' : value) (key : string) (json_value : value)
| SlotRebound (slot : string) (v : value) (rest : setattr_outcome)
| DictReplaced (d : list (string * value)) (raised : option exn).

(** Lines 633 to 636 on the field cache that [__init__] made:
    [field = self.__fields_cache__.get(name)], the return when there is
    none, and [field.type.__to_json_value__(value)].  [inl] is the end of
    the call, by return or by exception, [inr] the GraphQL name and the
    JSON value to store. *)
Definition cached_json (cache : dict Field) (name : string) (v : value)
  : option exn + string * value :=
  match dict_get cache name with
  | None => inl None
  | Some field =>
      match to_json v (field_type field) with
      | Raise e => inl (Some e)
      | Ok json_value => inr (field_graphql_name field, json_value)
      end
  end.

(** The same lines when [self.__fields_cache__] is a plain value [c],
    which only a previous assignment to [__fields_cache__] or [__dict__]
    can bring about.  No plain value holds a [Field], so that the call
    returns at [if field is None] or raises before it reaches the store:
    - [c.get] exists on a [dict]; on an instance it is the attribute
      [get], a value that cannot be called ([TypeError]), or missing;
      no other value has it ([AttributeError]);
    - [field.type] exists only on an instance with an attribute [type];
    - [__to_json_value__] exists only on an instance, where it is the
      method that takes no argument besides [self] ([TypeError]). *)
Definition plain_cache_sync (c : value) (name : string) : option exn :=
  match c with
  | VDict entries =>
      match dict_get entries name with
      | None => None
      | Some VNone => None
      | Some (VInst _ _ fattrs _ _ _) =>
          match dict_get fattrs "type" with
          | Some (VInst _ _ _ _ _ _) => Some TypeError
          | _ => Some AttributeError
          end
      | Some _ => Some AttributeError
      end
  | VInst _ _ cattrs _ _ _ =>
      match dict_get cattrs "get" with
      | Some _ => Some TypeError
      | None => Some AttributeError
      end
  | _ => Some AttributeError
  end.

(** Line 637, [self.__json_data__[key] = json_value], on the instance
    with the attribute already set: a [dict] binds the key; on an
    instance it is [setattr(json_data, key, json_value)], whose outcome
    is [on_instance]; the values that are neither a [dict] nor an
    instance do not support item assignment by a name. *)
Definition store_setitem (cn : string) (cf : dict Field) (attrs : dict value)
           (cache : dict Field) (json_data : value)
           (sl : option (list Selection)) (key : string) (json_value : value)
           (on_instance : setattr_outcome)
  : setattr_outcome :=
  match json_data with
  | VDict d =>
      Finished (VInst cn cf attrs cache (VDict (dict_set d key json_value)) sl)
               None
  | VInst _ _ _ _ _ _ =>
      Forwarded (VInst cn cf attrs cache json_data sl) on_instance
  | _ => Finished (VInst cn cf attrs cache json_data sl) (Some TypeError)
  end.

(** [ContainerType.__setattr__] on a constructed instance (one that has
    [__json_data__]; while [__init__] is populating, [set_field] stands
    for it).  Line 629, [object.__setattr__(self, name, value)], comes
    first:
    - [__class__] takes a class and [__dict__] a [dict], and no value is
      a class: [TypeError]; [__weakref__] cannot be written:
      [AttributeError]; nothing has changed when these are raised;
    - [__dict__] with a [dict] replaces the instance dictionary; the
      instance is a constructed one afterwards only if the new
      dictionary has [__json_data__], and then line 633 reads its
      [__fields_cache__];
    - [__fields_cache__], [__selection_list__] and [__json_data__]
      rebind the entry that [__init__] made; with [__json_data__] the
      assigned value is the backing store from then on;
    - any other name binds the attribute.
    The lines after it run whatever the name was.  On something that is
    not an instance [object.__setattr__] raises.  Values are trees: the
    assigned value is taken to be an object of its own, not the backing
    store of the instance or a part of it. *)
Fixpoint ContainerType_setattr (self : value) (name : string) (v : value)
         {struct self} : setattr_outcome :=
  match self with
  | VInst cn cf attrs cache json_data sl =>
      if String.eqb name "__class__" then Finished self (Some TypeError)
      else if String.eqb name "__weakref__" then
        Finished self (Some AttributeError)
      else if String.eqb name "__dict__" then
        match v with
        | VDict d =>
            DictReplaced d
              (if dict_mem d "__json_data__" then
                 match dict_get d "__fields_cache__" with
                 | Some c => plain_cache_sync c name
                 | None => Some AttributeError
                 end
               else None)
        | _ => Finished self (Some TypeError)
        end
      else if String.eqb name "__fields_cache__" then
        SlotRebound name v (Finished self (plain_cache_sync v name))
      else if String.eqb name "__selection_list__" then
        SlotRebound name v
          (match cached_json cache name v with
           | inl raised => Finished self raised
           | inr (key, json_value) =>
               store_setitem cn cf attrs cache json_data sl key json_value
                 (ContainerType_setattr json_data key json_value)
           end)
      else if String.eqb name "__json_data__" then
        let self' := VInst cn cf attrs cache v sl in
        match cached_json cache name v with
        | inl raised => Finished self' raised
        | inr (key, json_value) =>
            match v with
            | VDict _ | VInst _ _ _ _ _ _ => StoreSetItem self' key json_value
            | _ => Finished self' (Some TypeError)
            end
        end
      else
        let attrs' := dict_set attrs name v in
        match cached_json cache name v with
        | inl raised => Finished (VInst cn cf attrs' cache json_data sl) raised
        | inr (key, json_value) =>
            store_setitem cn cf attrs' cache json_data sl key json_value
              (ContainerType_setattr json_data key json_value)
        end
  | _ =>
      Finished self
        (Some (if String.eqb name "__class__" then TypeError
               else AttributeError))
  end.

(** [ContainerType.__iter__], [__len__], [__contains__] and the instance
    method [__to_json_value__]. *)
Definition ContainerType_iter (self : value) : list string :=
  match self with
  | VInst _ _ _ cache _ _ => dict_keys cache
  | _ => []
  end.

Definition ContainerType_len (self : value) : nat :=
  List.length (ContainerType_iter self).

Definition ContainerType_contains (self : value) (name : string) : bool :=
  match self with
  | VInst _ _ attrs _ _ _ => dict_mem attrs name
  | _ => false
  end.

Definition ContainerType_getattr (self : value) (name : string) : option value :=
  match self with
  | VInst _ _ attrs _ _ _ => dict_get attrs name
  | _ => None
  end.

Definition backing_store (self : value) : option value :=
  match self with
  | VInst _ _ _ _ json_data _ => Some json_data
  | _ => None
  end.

(** The instance as the call itself left it, where it still is an
    instance of this model; for [Forwarded] and [StoreSetItem] its
    backing store is the object that the item assignment then writes
    to. *)
Definition outcome_instance (o : setattr_outcome) : option value :=
  match o with
  | Finished self' _ => Some self'
  | Forwarded self' _ => Some self'
  | StoreSetItem self' _ _ => Some self'
  | SlotRebound _ _ _ => None
  | DictReplaced _ _ => None
  end.

End Codec.

(** ** Class objects *)

(** A class object: its identity ([is] compares [c_id]), the registry it
    was declared in ([__schema__], a reference into the store of
    registries) and what it denotes.  [__name__] and [__kind__] are read
    off the denotation. *)
Record PyClass : Type := mkClass {
  c_id : nat;
  c_schema : nat;
  c_type : gtype
}.

Definition c_name (c : PyClass) : string := type_name (c_type c).
Definition c_kind (c : PyClass) : string := type_kind (c_type c).
Definition same_object (a b : PyClass) : bool := Nat.eqb (c_id a) (c_id b).

(** The built-in scalars, declared in [global_schema] (registry 0). *)
Definition Int : gtype := TScalar "Int" (conv_named "int").
Definition Float : gtype := TScalar "Float" (conv_named "float").
Definition String_ : gtype := TScalar "String" (conv_named "str").
Definition Boolean : gtype := TScalar "Boolean" conv_bool.
Definition ID : gtype := TScalar "ID" (conv_named "str").

Definition Int_class : PyClass := mkClass 0 0 Int.
Definition Float_class : PyClass := mkClass 1 0 Float.
Definition String_class : PyClass := mkClass 2 0 String_.
Definition Boolean_class : PyClass := mkClass 3 0 Boolean.
Definition ID_class : PyClass := mkClass 4 0 ID.

(** What may be handed over where a type is expected: one of the Python
    objects [int], [float], [str], [bool], [id], a GraphQL class, or
    anything else. *)
Inductive pyobj : Type :=
| py_int | py_float | py_str | py_bool | py_id
| py_class (c : PyClass)
| py_other.

Definition map_python_to_graphql (o : pyobj) : option PyClass :=
  match o with
  | py_int => Some Int_class
  | py_float => Some Float_class
  | py_str => Some String_class
  | py_bool => Some Boolean_class
  | py_id => Some ID_class
  | _ => None
  end.

(** [BaseType.__ensure__] *)
Definition BaseType_ensure (t : pyobj) : except PyClass :=
  match t with
  | py_class c => Ok c
  | _ => match map_python_to_graphql t with
         | Some c => Ok c
         | None => Raise TypeError
         end
  end.

(** ** Arguments *)

Record Arg : Type := mkArg {
  arg_type : PyClass;
  arg_graphql_name : option string;
  arg_default : value
}.

Section Arguments.
Variable named_converter : string -> value -> except value.

(** [typ(default)]: [typ] is the object as given, not the ensured
    class. *)
Definition py_call (typ : pyobj) (v : value) : except value :=
  match typ with
  | py_class c => call0 named_converter (c_type c) v
  | py_int => named_converter "int" v
  | py_float => named_converter "float" v
  | py_str => named_converter "str" v
  | py_bool => Ok (VBool (truthy v))
  | py_id => named_converter "id" v
  | py_other => Raise TypeError
  end.

(** [Arg.__init__]; [default = VNone] is the absent default. *)
Definition Arg_init (typ : pyobj) (graphql_name : option string)
           (default : value) : except Arg :=
  do t <- BaseType_ensure typ;
  let self := mkArg t graphql_name default in
  match default with
  | VNone => Ok self
  | _ =>
      do r <- py_call typ default;
      if truthy r then Ok self else Raise AssertionError
  end.
End Arguments.

(** ** The schema registry *)

Record Schema : Type := mkSchema {
  s_all : dict PyClass;            (* __all *)
  s_kinds : dict (dict PyClass);   (* __kinds *)
  s_cache : dict PyClass           (* __cache__ *)
}.

Definition empty_schema : Schema := mkSchema [] [] [].

(** [self.__kinds.setdefault(k, ODict()).update(v)] *)
Definition kinds_merge (kinds : dict (dict PyClass)) (k : string)
           (v : dict PyClass) : dict (dict PyClass) :=
  let (sub, kinds') := dict_setdefault kinds k [] in
  dict_set kinds' k (dict_update sub v).

(** [Schema.__iadd__]: the registry afterwards and the exception raised,
    if any. *)
Definition Schema_iadd (self : Schema) (typ : PyClass) : Schema * option exn :=
  let name := c_name typ in
  let (t, all') := dict_setdefault (s_all self) name typ in
  if negb (same_object t typ)
  then (mkSchema all' (s_kinds self) (s_cache self),
        Some (ValueError_registered name))
  else (mkSchema all' (kinds_merge (s_kinds self) (c_kind typ) [(name, typ)])
                 (s_cache self), None).

(** [Schema.__isub__]: the first [del] may already have happened when the
    second one raises. *)
Definition Schema_isub (self : Schema) (typ : PyClass) : Schema * option exn :=
  let name := c_name typ in
  match dict_del (s_all self) name with
  | None => (self, Some (KeyError name))
  | Some all' =>
      let self1 := mkSchema all' (s_kinds self) (s_cache self) in
      match dict_get (s_kinds self) (c_kind typ) with
      | None => (self1, Some (KeyError (c_kind typ)))
      | Some sub =>
          match dict_del sub name with
          | None => (self1, Some (KeyError name))
          | Some sub' =>
              (mkSchema all' (dict_set (s_kinds self) (c_kind typ) sub')
                        (s_cache self), None)
          end
      end
  end.

Definition Schema_contains (self : Schema) (key : string) : bool :=
  dict_mem (s_all self) key.

Definition Schema_getitem (self : Schema) (key : string) : except PyClass :=
  match dict_get (s_all self) key with
  | Some c => Ok c
  | None => Raise (KeyError key)
  end.

(** The store: registries by reference, the next free registry reference
    and the next free class identity.  Registry 0 is [global_schema]. *)
Record World : Type := mkWorld {
  w_schemas : nat -> Schema;
  w_next_schema : nat;
  w_next_id : nat
}.

Definition schema_at (w : World) (r : nat) : Schema := w_schemas w r.

Definition set_schema (w : World) (r : nat) (s : Schema) : World :=
  mkWorld (fun r' => if Nat.eqb r' r then s else w_schemas w r')
          (w_next_schema w) (w_next_id w).

(** [Schema.__init__]: the new registry's reference and the store.  With
    no [base_schema], [global_schema] is the base once it exists. *)
Definition Schema_init (w : World) (base_schema : option nat) : nat * World :=
  let base :=
    match base_schema with
    | Some b => Some b
    | None => if Nat.eqb (w_next_schema w) 0 then None else Some 0
    end in
  let self :=
    match base with
    | None => empty_schema
    | Some b =>
        mkSchema (dict_update [] (s_all (schema_at w b)))
                 (fold_left (fun kinds kv => kinds_merge kinds (fst kv) (snd kv))
                            (s_kinds (schema_at w b)) [])
                 []
    end in
  let r := w_next_schema w in
  (r, mkWorld (fun r' => if Nat.eqb r' r then self else w_schemas w r')
              (S r) (w_next_id w)).

(** ** The wrapper factory *)

Section Wrappers.
(** The factory of [non_null] and [list_of]: [wrap] builds the name and
    the denotation of the wrapper class from those of [t]. *)
Variable wrap : gtype -> gtype.

Definition make_wrapper (w : World) (t : pyobj) : except (PyClass * World) :=
  do t <- BaseType_ensure t;
  let name := type_name (wrap (c_type t)) in
  let schema := schema_at w (c_schema t) in
  match dict_get (s_cache schema) name with
  | Some cached => Ok (cached, w)
  | None =>
      let wrapper := mkClass (w_next_id w) (c_schema t) (wrap (c_type t)) in
      let schema' := mkSchema (s_all schema) (s_kinds schema)
                              (dict_set (s_cache schema) name wrapper) in
      let w' := set_schema w (c_schema t) schema' in
      Ok (wrapper, mkWorld (w_schemas w') (w_next_schema w') (S (w_next_id w')))
  end.
End Wrappers.

Definition non_null : World -> pyobj -> except (PyClass * World) :=
  make_wrapper TNonNull.
Definition list_of : World -> pyobj -> except (PyClass * World) :=
  make_wrapper TListOf.

(** ** Interface collection *)

(** A base class as [__populate_interfaces] sees it: its identity, and the
    attributes [__kind__] and [__interfaces__] where it has them. *)
Inductive base_class : Type :=
| mkBase (id : nat) (kind : option string)
         (interfaces : option (list base_class)).

Definition base_id (b : base_class) : nat :=
  match b with mkBase i _ _ => i end.
(** [getattr(b, '__kind__', '')] *)
Definition base_kind (b : base_class) : string :=
  match b with mkBase _ (Some k) _ => k | mkBase _ None _ => "" end.
(** [getattr(b, '__interfaces__', [])] *)
Definition base_interfaces (b : base_class) : list base_class :=
  match b with mkBase _ _ (Some l) => l | mkBase _ _ None => [] end.

(** [i in ifaces]: class objects compare by identity. *)
Definition class_in (i : base_class) (ifaces : list base_class) : bool :=
  existsb (fun j => Nat.eqb (base_id j) (base_id i)) ifaces.

(** The inner loop [for i in ...: if i not in ifaces: ifaces.append(i)]. *)
Definition add_inherited (ifaces : list base_class) (inherited : list base_class)
  : list base_class :=
  fold_left (fun acc i => if class_in i acc then acc else acc ++ [i])
            inherited ifaces.

(** [ContainerTypeMeta.__populate_interfaces] *)
Definition populate_interfaces (bases : list base_class) : list base_class :=
  fold_left
    (fun ifaces b =>
       let ifaces1 :=
         if String.eqb (base_kind b) "interface" then ifaces ++ [b] else ifaces in
       add_inherited ifaces1 (base_interfaces b))
    bases [].

(** ** Round trips *)

(** Two dicts are equal, as Python compares them, when they bind the same
    keys to the same values, in whatever order. *)
Definition same_mapping (a b : dict value) : Prop :=
  forall k, dict_get a k = dict_get b k.

(** [k] is the GraphQL name of a field in the cache of the instance. *)
Definition materialized_wire (cache : dict Field) (k : string) : bool :=
  existsb (fun nf => String.eqb (field_graphql_name (snd nf)) k) cache.

(** The part of the JSON object [d] whose keys are GraphQL names of
    materialized fields. *)
Definition materialized_subset (cache : dict Field) (d : dict value) : dict value :=
  filter (fun kv => materialized_wire cache (fst kv)) d.

(** The selection list, if any, selects fields of the class under their
    own names; without one, the fields are those of the table, each
    under its key. *)
Definition selects_own_fields (fields : list (string * Field))
           (sel : option (list Selection)) : Prop :=
  match sel with
  | None => Forall (fun kf => fst kf = field_name (snd kf)) fields
  | Some sels =>
      Forall (fun s => selection_name s = field_name (sel_field s)
                       /\ In (field_name (sel_field s), sel_field s) fields) sels
  end.

(** Serializing what the type of [f] decoded from the value bound to the
    GraphQL name of [f] in [d] gives that value back. *)
Definition reserializes (nc : string -> value -> except value)
           (d : dict value) (f : Field) : Prop :=
  forall raw x,
    dict_get d (field_graphql_name f) = Some raw ->
    call0 nc (field_type f) raw = Ok x ->
    to_json x (field_type f) = Ok raw.

(** What holds of the attributes and the cache [st] while [__init__] runs
    on the JSON object [d]: a cached field belongs to the class and its
    attribute holds the decoding of the value bound to its GraphQL name;
    an attribute that is set is cached. *)
Definition populated (nc : string -> value -> except value)
           (fields : list (string * Field)) (d : dict value)
           (st : dict value * dict Field) : Prop :=
  (forall name f,
      In (name, f) (snd st) ->
      In (name, f) fields
      /\ exists raw x,
          dict_get d (field_graphql_name f) = Some raw
          /\ call0 nc (field_type f) raw = Ok x
          /\ dict_get (fst st) name = Some x)
  /\ (forall name x,
         dict_get (fst st) name = Some x -> exists f, In (name, f) (snd st)).

(** Types and values on which decoding changes nothing: the pass-through
    scalar, an enum, [Boolean] on a boolean, and wrappers and lists of
    these. *)
Fixpoint passes_through (t : gtype) (raw : value) {struct t} : bool :=
  match t with
  | TScalar _ conv_pass => true
  | TScalar _ conv_bool =>
      match raw with VNone | VBool _ => true | _ => false end
  | TScalar _ (conv_named _) => false
  | TEnum _ _ => true
  | TUnion _ _ => false
  | TContainer _ _ _ => false
  | TNonNull t' => passes_through t' raw
  | TListOf t' =>
      match raw with
      | VNone => true
      | VList l => forallb (passes_through t') l
      | _ => false
      end
  end.

(** ** Sample declarations *)

Definition Color : gtype := TEnum "Color" ["A"; "B"; "C"].

Definition f_active : Field := mkField "active" "active" Boolean.
Definition f_admin : Field := mkField "admin" "admin" Boolean.

(** [class Flags(Type): active = bool; admin = bool] *)
Definition Flags : gtype :=
  TContainer "type" "Flags" [("active", f_active); ("admin", f_admin)].

Definition flags_json : value :=
  VDict [("active", VBool true); ("admin", VBool false)].

Definition select_active : list Selection := [mkSelection f_active None].

(** [class Mixed(Type): color = Color; active = bool] *)
Definition f_color : Field := mkField "color" "color" Color.
Definition Mixed : gtype :=
  TContainer "type" "Mixed" [("color", f_color); ("active", f_active)].

Definition mixed_json : value :=
  VDict [("color", VStr "D"); ("active", VBool true)].

(** A registry holding [Int], a second class that is also named [Int],
    and a store whose [global_schema] holds [Flags]. *)
Definition registry_with_Int : Schema := fst (Schema_iadd empty_schema Int_class).
Definition other_Int_class : PyClass := mkClass 7 0 Int.

Definition Flags_class : PyClass := mkClass 5 0 Flags.
Definition sample_world : World :=
  mkWorld (fun r => if Nat.eqb r 0
                    then fst (Schema_iadd empty_schema Flags_class)
                    else empty_schema) 1 10.

(** The wrapper [non_null(Flags)] built in [sample_world], and the store
    after that call. *)
Definition Flags_non_null : PyClass := mkClass 10 0 (TNonNull Flags).
Definition sample_world_wrapped : World :=
  match non_null sample_world (py_class Flags_class) with
  | Ok (_, w1) => w1
  | Raise _ => sample_world
  end.

(** An environment in which every named converter passes its argument
    through. *)
Definition plain_converters (fn : string) (v : value) : except value := Ok v.

(** [Flags(flags_json)] *)
Definition flags_instance : value :=
  VInst "Flags" [("active", f_active); ("admin", f_admin)]
        [("active", VBool true); ("admin", VBool false)]
        [("active", f_active); ("admin", f_admin)]
        flags_json None.

(** [class Holder(Type): flags = Flags] *)
Definition f_flags : Field := mkField "flags" "flags" Flags.
Definition Holder : gtype := TContainer "type" "Holder" [("flags", f_flags)].
Definition holder_json : value := VDict [("flags", VNone)].

(** [Holder({'flags': {'active': True, 'admin': False}})] and
    [Flags({'active': False, 'admin': True})]. *)
Definition holder_instance : value :=
  VInst "Holder" [("flags", f_flags)] [("flags", flags_instance)]
        [("flags", f_flags)] (VDict [("flags", flags_json)]) None.

Definition flags_swapped : value :=
  VInst "Flags" [("active", f_active); ("admin", f_admin)]
        [("active", VBool false); ("admin", VBool true)]
        [("active", f_active); ("admin", f_admin)]
        (VDict [("active", VBool false); ("admin", VBool true)]) None.

(** [class Node(Interface)] and [class Child(Node)] as bases. *)
Definition Node_base : base_class := mkBase 1 (Some "interface") (Some []).
Definition Child_base : base_class :=
  mkBase 2 (Some "interface") (Some [Node_base]).

(** Modelled after the words of the specification, for comparison with
    [populate_interfaces]: every base of kind interface together with
    every interface a base implements, in base order, each kept once at
    its first position. *)
Definition dedup_first (l : list base_class) : list base_class :=
  fold_left (fun acc i => if class_in i acc then acc else acc ++ [i]) l [].

Definition interfaces_as_specified (bases : list base_class) : list base_class :=
  dedup_first
    (flat_map (fun b =>
                 (if String.eqb (base_kind b) "interface" then [b] else [])
                 ++ base_interfaces b) bases).

(** ** More of the registry *)

(** [Schema.__iter__]: the registered classes, in insertion order. *)
Definition Schema_iter (self : Schema) : list PyClass := map snd (s_all self).

(** [Schema.__getattr__] returns the submapping of a kind, or else a
    class. *)
Inductive schema_attr : Type :=
| attr_kind (sub : dict PyClass)
| attr_type (c : PyClass).

Definition Schema_getattr (self : Schema) (key : string) : except schema_attr :=
  match dict_get (s_kinds self) key with
  | Some sub => Ok (attr_kind sub)
  | None =>
      match dict_get (s_all self) key with
      | Some c => Ok (attr_type c)
      | None => Raise AttributeError
      end
  end.

(** The keys of a Python dict are pairwise distinct. *)
Definition distinct_keys (V : Type) (d : dict V) : Prop := NoDup (dict_keys d).

(** Every class of the name table is found, under the same name, in the
    submapping of its kind. *)
Definition kinds_cover_names (self : Schema) : Prop :=
  forall name c,
    dict_get (s_all self) name = Some c ->
    exists sub, dict_get (s_kinds self) (c_kind c) = Some sub
                /\ dict_get sub name = Some c.

(** The state of a registry that its operations maintain. *)
Definition registry_ok (self : Schema) : Prop :=
  distinct_keys (s_all self)
  /\ distinct_keys (s_kinds self)
  /\ (forall k sub, In (k, sub) (s_kinds self) -> distinct_keys sub)
  /\ kinds_cover_names self.

(** The submapping of a kind, empty when the kind has none yet. *)
Definition kind_sub (kinds : dict (dict PyClass)) (k : string) : dict PyClass :=
  match dict_get kinds k with Some sub => sub | None => [] end.

(** The GraphQL name looked for by a call [set_field(name, field)]. *)
Definition wire_of (e : string * Field * (value -> except value)) : string :=
  field_graphql_name (snd (fst e)).

(** ** Field inheritance *)

(** [ContainerTypeMeta.__inherit_fields]: the table of the class, empty
    at that point, is updated with the table of each base in turn.  A
    base that is no container class has no table ([None]), and reading
    it raises. *)
Fixpoint inherit_fields_from (table : dict Field)
         (bases : list (option (dict Field))) : except (dict Field) :=
  match bases with
  | [] => Ok table
  | None :: _ => Raise AttributeError
  | Some b :: r => inherit_fields_from (dict_update table b) r
  end.

Definition inherit_fields (bases : list (option (dict Field)))
  : except (dict Field) :=
  inherit_fields_from [] bases.

(** The field that the last base defining [name] binds it to. *)
Fixpoint last_defined (bases : list (dict Field)) (name : string)
         (found : option Field) : option Field :=
  match bases with
  | [] => found
  | b :: r =>
      last_defined r name
        (match dict_get b name with Some f => Some f | None => found end)
  end.

(** The names defined by the bases, each at its first appearance. *)
Fixpoint first_seen (seen : list string) (names : list string) : list string :=
  match names with
  | [] => seen
  | x :: r =>
      first_seen (if existsb (String.eqb x) seen then seen else seen ++ [x]) r
  end.

(** ** Names *)

(** [s.split('_')] *)
Fixpoint split_underscore (s : string) : list string :=
  match s with
  | EmptyString => [EmptyString]
  | String c r =>
      if Ascii.eqb c "_"%char then EmptyString :: split_underscore r
      else match split_underscore r with
           | h :: t => String c h :: t
           | [] => [String c EmptyString]
           end
  end.

(** Case of ASCII letters.  Names are taken to be ASCII, as GraphQL names
    are; any other byte is left as it is and counts as uncased. *)
Definition is_upper (c : ascii) : bool :=
  Nat.leb 65 (nat_of_ascii c) && Nat.leb (nat_of_ascii c) 90.
Definition is_lower (c : ascii) : bool :=
  Nat.leb 97 (nat_of_ascii c) && Nat.leb (nat_of_ascii c) 122.
Definition to_upper (c : ascii) : ascii :=
  if is_lower c then ascii_of_nat (nat_of_ascii c - 32) else c.
Definition to_lower (c : ascii) : ascii :=
  if is_upper c then ascii_of_nat (nat_of_ascii c + 32) else c.

(** [s.title()]: a letter that follows a letter is lowered, any other
    letter is raised. *)
Fixpoint title_from (previous_is_cased : bool) (s : string) : string :=
  match s with
  | EmptyString => EmptyString
  | String c r =>
      String (if previous_is_cased then to_lower c else to_upper c)
             (title_from (is_upper c || is_lower c) r)
  end.

Definition str_title (s : string) : string := title_from false s.

(** [BaseItem._to_graphql_name] *)
Definition to_graphql_name (name : string) : string :=
  let parts := split_underscore name in
  String.concat "" (firstn 1 parts ++ map str_title (skipn 1 parts)).

Fixpoint has_underscore (s : string) : bool :=
  match s with
  | EmptyString => false
  | String c r => Ascii.eqb c "_"%char || has_underscore r
  end.

Fixpoint count_underscores (s : string) : nat :=
  match s with
  | EmptyString => 0
  | String c r => (if Ascii.eqb c "_"%char then 1 else 0) + count_underscores r
  end.

(** ** Items: what fields and arguments share *)

(** [BaseItem]: the attributes set by [__init__] and by
    [_set_container]; the registry is held by reference. *)
Record BaseItem : Type := mkItem {
  item_type : PyClass;
  item_graphql_name : option string;
  item_name : option string;
  item_schema : option nat;
  item_container : option PyClass
}.

(** [BaseItem.__init__] *)
Definition BaseItem_init (typ : pyobj) (graphql_name : option string)
  : except BaseItem :=
  do t <- BaseType_ensure typ;
  Ok (mkItem t graphql_name None None None).

(** [not self.graphql_name] *)
Definition no_graphql_name (g : option string) : bool :=
  match g with
  | None => true
  | Some s => String.eqb s ""
  end.

(** [BaseItem._set_container] *)
Definition BaseItem_set_container (self : BaseItem) (schema : nat)
           (container : PyClass) (name : string) : BaseItem :=
  mkItem (item_type self)
         (if no_graphql_name (item_graphql_name self)
          then Some (to_graphql_name name)
          else item_graphql_name self)
         (Some name) (Some schema) (Some container).

(** * Properties *)

(** ** Dictionaries and comprehensions *)

Lemma dict_get_set_same V (d : dict V) k v :
  dict_get (dict_set d k v) k = Some v.
Proof.
  induction d as [|[k' v'] r IH]; simpl.
  - now rewrite String.eqb_refl.
  - destruct (String.eqb k' k) eqn:E; simpl; rewrite E; auto.
Qed.

Lemma dict_get_set_other V (d : dict V) k k' v :
  k <> k' -> dict_get (dict_set d k v) k' = dict_get d k'.
Proof.
  intros Hne. induction d as [|[k0 v0] r IH]; simpl.
  - destruct (String.eqb k k') eqn:E; auto.
    apply String.eqb_eq in E. contradiction.
  - destruct (String.eqb k0 k) eqn:E; simpl.
    + apply String.eqb_eq in E. subst k0.
      destruct (String.eqb k k') eqn:E'; auto.
      apply String.eqb_eq in E'. contradiction.
    + now rewrite IH.
Qed.

Lemma dict_del_absent V (d : dict V) k :
  dict_get d k = None -> dict_del d k = None.
Proof.
  induction d as [|[k' v'] r IH]; simpl; auto.
  destruct (String.eqb k' k); [discriminate|].
  intros H. now rewrite IH.
Qed.

Lemma mapM_ext A B (f g : A -> except B) xs :
  (forall x, f x = g x) -> mapM f xs = mapM g xs.
Proof.
  intros H. induction xs as [|x r IH]; simpl; auto.
  now rewrite H, IH.
Qed.

Lemma mapM_Ok_Forall2 A B (f : A -> except B) xs ys :
  mapM f xs = Ok ys <-> Forall2 (fun x y => f x = Ok y) xs ys.
Proof.
  revert ys. induction xs as [|x r IH]; intros ys; simpl.
  - split.
    + intros H. injection H as <-. constructor.
    + intros H. inversion H. reflexivity.
  - split.
    + destruct (f x) as [y|e] eqn:Ef; simpl; [|discriminate].
      destruct (mapM f r) as [ys'|e] eqn:Er; simpl; [|discriminate].
      intros H. injection H as <-. constructor; auto. now apply IH.
    + intros H. inversion H as [|x0 y l l' Hxy Hrest]; subst.
      rewrite Hxy. simpl. apply IH in Hrest. rewrite Hrest. reflexivity.
Qed.

(** ** Decoding with and without a selection list *)

Section CodecFacts.
Variable nc : string -> value -> except value.

Lemma class_entries_unfold (fields : list (string * Field)) :
  (fix each (fs : list (string * Field)) :=
     match fs with
     | [] => []
     | (_, f) :: r => (field_name f, f, call0 nc (field_type f)) :: each r
     end) fields = class_entries nc fields.
Proof.
  induction fields as [|[k f] r IH]; simpl; auto.
  now rewrite IH.
Qed.

Lemma call_None (t : gtype) (v : value) : call nc t v None = call0 nc t v.
Proof.
  revert v. induction t; intros v; simpl; auto.
  - now rewrite class_entries_unfold.
  - destruct v; auto;
      destruct (py_iter _); simpl; auto;
      rewrite (mapM_ext _ (call0 nc t)); auto.
Qed.

(** The wrapper of [non_null] rejects [None]. *)
Lemma non_null_None (t : gtype) sel :
  call nc (TNonNull t) VNone sel = Raise (ValueError_null (type_name t ++ "!")).
Proof. reflexivity. Qed.

(** On anything else it calls [t(json_data)]: the selection list it was
    given is not passed on. *)
Lemma non_null_call (t : gtype) (v : value) sel :
  v <> VNone -> call nc (TNonNull t) v sel = call nc t v None.
Proof.
  intros Hv. rewrite call_None. destruct v; simpl; auto. contradiction.
Qed.
End CodecFacts.

(** ** Encoding *)

Lemma to_json_list (l : list value) (t : gtype) :
  to_json (VList l) (TListOf t) =
  do rs <- mapM (fun x => to_json x t) l; Ok (VList rs).
Proof.
  simpl. f_equal.
  induction l as [|x r IH]; simpl; auto.
  now rewrite IH.
Qed.

Lemma to_json_instance cn cf attrs cache jd sl kind n fs :
  to_json (VInst cn cf attrs cache jd sl) (TContainer kind n fs) =
  do d <- walk_fields attrs cf []; Ok (VDict d).
Proof.
  simpl. generalize (@nil (string * value)).
  induction cf as [|[name f] r IH]; intros d; simpl; auto.
  replace ((fix look (al : list (string * value)) : option (except value) :=
              match al with
              | [] => None
              | (k, x) :: al' =>
                  if String.eqb k name then Some (to_json x (field_type f))
                  else look al'
              end) attrs)
    with (attr_to_json attrs name (field_type f)).
  - destruct (attr_to_json attrs name (field_type f)) as [[j|e]|]; simpl; auto.
  - clear IH. unfold attr_to_json.
    induction attrs as [|[k x] al IHa]; simpl; auto.
    destruct (String.eqb k name); auto.
Qed.


(** ** Decoding [None] with a container class *)


(** ** The wrapper of [list_of] *)

(** C5: the wrapper of [list_of(t)] maps JSON null to [None], and maps an
    array to the list of the decodings of its elements by [t], in order
    and of the same length: the call succeeds with [rs] exactly when [rs]
    pairs up, position by position, with the results of [t] on the
    elements. *)
Theorem list_of_decodes_elementwise
        (nc : string -> value -> except value) (t : gtype)
        (sel : option (list Selection)) :
  call nc (TListOf t) VNone sel = Ok VNone
  /\ (forall vs,
         call nc (TListOf t) (VList vs) sel =
         do rs <- mapM (fun v => call nc t v sel) vs; Ok (VList rs))
  /\ (forall vs rs,
         call nc (TListOf t) (VList vs) sel = Ok (VList rs)
         <-> Forall2 (fun v r => call nc t v sel = Ok r) vs rs)
  /\ (forall vs rs,
         call nc (TListOf t) (VList vs) sel = Ok (VList rs) ->
         List.length rs = List.length vs
         /\ forall i v, nth_error vs i = Some v ->
                        exists r, nth_error rs i = Some r
                                  /\ call nc t v sel = Ok r).
Proof.
  assert (Hiff : forall vs rs,
             call nc (TListOf t) (VList vs) sel = Ok (VList rs)
             <-> Forall2 (fun v r => call nc t v sel = Ok r) vs rs).
  { intros vs rs. simpl. rewrite <- mapM_Ok_Forall2.
    destruct (mapM (fun v => call nc t v sel) vs) as [ys|e]; simpl.
    - split; intros H; injection H as ->; reflexivity.
    - split; discriminate. }
  split; [reflexivity|]. split; [reflexivity|]. split; [exact Hiff|].
  intros vs rs H. apply Hiff in H. split.
  - symmetry. eapply Forall2_length; eauto.
  - induction H as [|v0 r0 vs' rs' Hhd Htl IH]; intros i v Hi.
    + destruct i; discriminate.
    + destruct i as [|i]; simpl in *.
      * injection Hi as <-. eauto.
      * eauto.
Qed.

Lemma list_of_decodes_elementwise_witness :
  call plain_converters (TListOf Boolean) (VList [VBool true; VInt 0]) None
  = Ok (VList [VBool true; VBool false])
  /\ List.length [VBool true; VBool false] = List.length [VBool true; VInt 0].
Proof.
  assert (H : call plain_converters (TListOf Boolean)
                   (VList [VBool true; VInt 0]) None
              = Ok (VList [VBool true; VBool false])) by reflexivity.
  split; [exact H|].
  exact (proj1 (proj2 (proj2 (proj2
           (list_of_decodes_elementwise plain_converters Boolean None))) _ _ H)).
Defined.

(** ** The wrapper of [non_null] *)

(** For every type [t], the wrapper of [non_null(t)] called on JSON null
    raises the [ValueError] named after the wrapper, and called on any
    other value, with any selection list, it returns what [t(json_data)]
    returns when it is called without a selection list. *)
Theorem non_null_decodes_as_base
        (nc : string -> value -> except value) (t : gtype)
        (sel : option (list Selection)) :
  call nc (TNonNull t) VNone sel
  = Raise (ValueError_null (type_name (TNonNull t)))
  /\ forall v, v <> VNone -> call nc (TNonNull t) v sel = call nc t v None.
Proof.
  split.
  - apply non_null_None.
  - intros v Hv. now apply non_null_call.
Qed.

Lemma non_null_decodes_as_base_witness :
  call plain_converters (TNonNull Flags) flags_json (Some select_active)
  = call plain_converters Flags flags_json None.
Proof.
  refine (proj2 (non_null_decodes_as_base plain_converters Flags
                   (Some select_active)) flags_json _).
  discriminate.
Defined.

(** C4: the wrapper of [non_null(Flags)], called on a JSON object that
    is not null with the selection list [[active]], does not return what
    [Flags] returns for the same object and the same selection list.
    Line 292 is [return t(json_data)]: the selection list is not handed
    on, so the wrapper decodes every field of the class and keeps no
    selection list, where [Flags] decodes [active] alone.  The wrapper of
    [list_of] (line 319) does hand it on. *)
Lemma non_null_drops_selection_list (nc : string -> value -> except value) :
  call nc (TNonNull Flags) flags_json (Some select_active)
  = Ok (VInst "Flags" [("active", f_active); ("admin", f_admin)]
              [("active", VBool true); ("admin", VBool false)]
              [("active", f_active); ("admin", f_admin)]
              flags_json None)
  /\ call nc Flags flags_json (Some select_active)
     = Ok (VInst "Flags" [("active", f_active); ("admin", f_admin)]
                 [("active", VBool true)]
                 [("active", f_active)]
                 flags_json (Some select_active))
  /\ call nc (TNonNull Flags) flags_json (Some select_active)
     <> call nc Flags flags_json (Some select_active).
Proof.
  assert (H1 : call nc (TNonNull Flags) flags_json (Some select_active)
               = Ok (VInst "Flags" [("active", f_active); ("admin", f_admin)]
                           [("active", VBool true); ("admin", VBool false)]
                           [("active", f_active); ("admin", f_admin)]
                           flags_json None)) by reflexivity.
  assert (H2 : call nc Flags flags_json (Some select_active)
               = Ok (VInst "Flags" [("active", f_active); ("admin", f_admin)]
                           [("active", VBool true)]
                           [("active", f_active)]
                           flags_json (Some select_active))) by reflexivity.
  repeat split; auto.
  rewrite H1, H2. discriminate.
Qed.

(** ** Argument defaults *)

(** C9: [Arg(Boolean, default=False)] raises [AssertionError] although
    [Boolean] decodes [False]: the constructor asserts the truth of the
    decoded default.  The same holds with [bool] in place of [Boolean]. *)
Theorem arg_default_false_rejected (nc : string -> value -> except value) :
  Arg_init nc (py_class Boolean_class) None (VBool false) = Raise AssertionError
  /\ call0 nc Boolean (VBool false) = Ok (VBool false)
  /\ Arg_init nc py_bool None (VBool false) = Raise AssertionError
  /\ Arg_init nc (py_class Boolean_class) None (VBool true)
     = Ok (mkArg Boolean_class None (VBool true)).
Proof. repeat split. Qed.

(** ** Interface collection *)

(** C8: for the bases [(Child, Node)], where [Child] is an interface that
    implements [Node], [__populate_interfaces] lists [Node] twice: once
    as inherited through [Child], once more as a base.  The specified
    list has it once. *)
Theorem populate_interfaces_repeats_base :
  populate_interfaces [Child_base; Node_base]
  = [Child_base; Node_base; Node_base]
  /\ interfaces_as_specified [Child_base; Node_base] = [Child_base; Node_base]
  /\ ~ NoDup (populate_interfaces [Child_base; Node_base]).
Proof.
  repeat split.
  intros H. inversion H as [|x l Hx Hl]; subst.
  inversion Hl as [|y l' Hy Hl']; subst.
  apply Hy. left. reflexivity.
Qed.

(** ** Registration *)

Lemma schema_eta (s : Schema) : mkSchema (s_all s) (s_kinds s) (s_cache s) = s.
Proof. now destruct s. Qed.

(** C7: registering [Int] in a registry that already holds the name
    [Int] raises nothing when the name is bound to that very class,
    where the docstring of [__iadd__] has the name alone decide (it
    must not exist in the schema, otherwise [ValueError]): line 198
    compares the object bound with [typ] by identity. *)
Lemma register_same_class_again :
  Schema_contains registry_with_Int (c_name Int_class) = true
  /\ Schema_iadd registry_with_Int Int_class = (registry_with_Int, None).
Proof. split; reflexivity. Qed.

(** What the two operations do: registering a class whose name is bound
    to another class raises [ValueError] and leaves the registry as it
    was; registering the class the name is already bound to raises
    nothing and leaves the name table as it was; unregistering a class
    whose name is not bound raises [KeyError] and leaves the registry as
    it was. *)
Theorem register_unregister_errors (self : Schema) (typ : PyClass) :
  (forall other,
      dict_get (s_all self) (c_name typ) = Some other ->
      same_object other typ = false ->
      Schema_iadd self typ = (self, Some (ValueError_registered (c_name typ))))
  /\ (forall other,
         dict_get (s_all self) (c_name typ) = Some other ->
         same_object other typ = true ->
         snd (Schema_iadd self typ) = None
         /\ s_all (fst (Schema_iadd self typ)) = s_all self)
  /\ (Schema_contains self (c_name typ) = false ->
      Schema_isub self typ = (self, Some (KeyError (c_name typ)))).
Proof.
  split; [|split].
  - intros other Hget Hne. unfold Schema_iadd, dict_setdefault.
    rewrite Hget, Hne. simpl. now rewrite schema_eta.
  - intros other Hget Hsame. unfold Schema_iadd, dict_setdefault.
    rewrite Hget, Hsame. split; reflexivity.
  - unfold Schema_contains, dict_mem. intros H. unfold Schema_isub.
    destruct (dict_get (s_all self) (c_name typ)) eqn:E; [discriminate|].
    now rewrite (dict_del_absent _ _ E).
Qed.

Lemma register_unregister_errors_witness :
  Schema_iadd registry_with_Int other_Int_class
  = (registry_with_Int, Some (ValueError_registered "Int"))
  /\ snd (Schema_iadd registry_with_Int Int_class) = None
  /\ Schema_isub empty_schema Int_class = (empty_schema, Some (KeyError "Int")).
Proof.
  split; [|split].
  - apply (proj1 (register_unregister_errors registry_with_Int other_Int_class)
                 Int_class); reflexivity.
  - apply (proj1 (proj2 (register_unregister_errors registry_with_Int Int_class))
                 Int_class); reflexivity.
  - apply (proj2 (proj2 (register_unregister_errors empty_schema Int_class)));
      reflexivity.
Defined.

(** ** The wrapper cache *)

Section WrapperCache.
Variable wrap : gtype -> gtype.

(** A wrapper, once built, is what the factory returns from then on,
    and the store is left as it is. *)
Lemma make_wrapper_cached (w w1 : World) (t : pyobj) (wr : PyClass) :
  make_wrapper wrap w t = Ok (wr, w1) ->
  make_wrapper wrap w1 t = Ok (wr, w1).
Proof.
  unfold make_wrapper. destruct (BaseType_ensure t) as [c|e]; simpl; [|discriminate].
  destruct (dict_get (s_cache (schema_at w (c_schema c)))
                     (type_name (wrap (c_type c)))) as [cached|] eqn:E.
  - intros H. injection H as <- <-. now rewrite E.
  - intros H. injection H as <- <-.
    unfold schema_at, set_schema. simpl. rewrite Nat.eqb_refl. simpl.
    now rewrite dict_get_set_same.
Qed.

(** The wrapper is recorded in the cache of the registry that [t] was
    declared in, under the wrapper's name. *)
Lemma make_wrapper_recorded (w w1 : World) (t : pyobj) (c wr : PyClass) :
  BaseType_ensure t = Ok c ->
  make_wrapper wrap w t = Ok (wr, w1) ->
  dict_get (s_cache (schema_at w1 (c_schema c))) (type_name (wrap (c_type c)))
  = Some wr.
Proof.
  unfold make_wrapper. intros ->. simpl.
  destruct (dict_get (s_cache (schema_at w (c_schema c)))
                     (type_name (wrap (c_type c)))) as [cached|] eqn:E.
  - intros H. injection H as <- <-. exact E.
  - intros H. injection H as <- <-.
    unfold schema_at, set_schema. simpl. rewrite Nat.eqb_refl. simpl.
    now rewrite dict_get_set_same.
Qed.

(** When the cache has no entry under the wrapper's name, the class
    returned is a new one, declared in the registry of [t], that denotes
    the wrapper of [t]. *)
Lemma make_wrapper_fresh (w w1 : World) (t : pyobj) (c wr : PyClass) :
  BaseType_ensure t = Ok c ->
  dict_get (s_cache (schema_at w (c_schema c))) (type_name (wrap (c_type c)))
  = None ->
  make_wrapper wrap w t = Ok (wr, w1) ->
  wr = mkClass (w_next_id w) (c_schema c) (wrap (c_type c)).
Proof.
  unfold make_wrapper. intros -> Hmiss. cbn [bind]. rewrite Hmiss.
  intros H. now injection H as <- _.
Qed.

(** A registry built from a base starts with an empty cache, and
    building it does not change what the factory returns for [t]. *)
Lemma make_wrapper_after_Schema_init (w1 : World) (t : pyobj) (c wr : PyClass)
      (base : option nat) :
  BaseType_ensure t = Ok c ->
  c_schema c < w_next_schema w1 ->
  make_wrapper wrap w1 t = Ok (wr, w1) ->
  s_cache (schema_at (snd (Schema_init w1 base)) (fst (Schema_init w1 base))) = []
  /\ make_wrapper wrap (snd (Schema_init w1 base)) t
     = Ok (wr, snd (Schema_init w1 base)).
Proof.
  intros Hc Hlt H. split.
  - unfold Schema_init, schema_at. simpl. rewrite Nat.eqb_refl.
    destruct base; simpl; auto.
    destruct (Nat.eqb (w_next_schema w1) 0); reflexivity.
  - revert H. unfold make_wrapper. rewrite Hc. cbn [bind].
    assert (Hs : schema_at (snd (Schema_init w1 base)) (c_schema c)
                 = schema_at w1 (c_schema c)).
    { unfold Schema_init, schema_at. simpl.
      destruct (Nat.eqb (c_schema c) (w_next_schema w1)) eqn:E; auto.
      apply Nat.eqb_eq in E. lia. }
    rewrite Hs.
    destruct (dict_get (s_cache (schema_at w1 (c_schema c)))
                       (type_name (wrap (c_type c)))) as [cached|].
    + intros H. injection H as <-. reflexivity.
    + intros H. injection H as _ Hw. exfalso.
      apply (f_equal w_next_id) in Hw. simpl in Hw. lia.
Qed.
End WrapperCache.

(** C3, as stated, fails: after a second registry is built from the
    first, the class found under the same name in the second registry is
    the same class, and [non_null] returns for it the very wrapper it
    returned before. *)
Lemma derived_registry_same_wrapper :
  match non_null sample_world (py_class Flags_class) with
  | Ok (wrapper1, w1) =>
      match Schema_init w1 (Some 0) with
      | (s2, w2) =>
          s2 = 1
          /\ Schema_getitem (schema_at w2 s2) "Flags" = Ok Flags_class
          /\ match non_null w2 (py_class Flags_class) with
             | Ok (wrapper2, _) =>
                 wrapper1 = wrapper2 /\ same_object wrapper1 wrapper2 = true
             | Raise _ => False
             end
      end
  | Raise _ => False
  end.
Proof. vm_compute. repeat split. Qed.

(** C3, amended: calling [non_null(t)] (or [list_of(t)]) again returns the
    identical wrapper and leaves the store unchanged; the wrapper is kept
    in the cache of the registry [t] was declared in; a registry built
    afterwards, from that registry or any other, starts with an empty
    cache, and the factory still returns the same wrapper for [t]. *)
Theorem wrapper_cache_identity (w w1 : World) (t : pyobj) (c wr : PyClass)
        (factory : World -> pyobj -> except (PyClass * World)) :
  factory = non_null \/ factory = list_of ->
  BaseType_ensure t = Ok c ->
  c_schema c < w_next_schema w ->
  factory w t = Ok (wr, w1) ->
  factory w1 t = Ok (wr, w1)
  /\ (exists name, dict_get (s_cache (schema_at w1 (c_schema c))) name = Some wr)
  /\ forall base,
       s_cache (schema_at (snd (Schema_init w1 base)) (fst (Schema_init w1 base))) = []
       /\ factory (snd (Schema_init w1 base)) t = Ok (wr, snd (Schema_init w1 base)).
Proof.
  intros Hf Hc Hlt H.
  assert (Hnext : w_next_schema w1 = w_next_schema w).
  { destruct Hf; subst factory; revert H;
      unfold non_null, list_of, make_wrapper; rewrite Hc; simpl;
      match goal with |- context [dict_get ?d ?k] => destruct (dict_get d k) end;
      intros H; injection H as _ <-; reflexivity. }
  destruct Hf; subst factory; unfold non_null, list_of in *.
  - split; [eapply make_wrapper_cached; eauto|].
    split; [eexists; eapply make_wrapper_recorded; eauto|].
    intros base. eapply make_wrapper_after_Schema_init; eauto.
    + now rewrite Hnext.
    + eapply make_wrapper_cached; eauto.
  - split; [eapply make_wrapper_cached; eauto|].
    split; [eexists; eapply make_wrapper_recorded; eauto|].
    intros base. eapply make_wrapper_after_Schema_init; eauto.
    + now rewrite Hnext.
    + eapply make_wrapper_cached; eauto.
Qed.

Lemma wrapper_cache_identity_witness :
  non_null sample_world_wrapped (py_class Flags_class)
  = Ok (Flags_non_null, sample_world_wrapped).
Proof.
  refine (proj1 (@wrapper_cache_identity sample_world sample_world_wrapped
                   (py_class Flags_class) Flags_class Flags_non_null non_null
                   (or_introl eq_refl) eq_refl _ eq_refl)).
  simpl. lia.
Defined.

(** ** A field that fails to decode *)

Lemma set_fields_app cls_name json_data pre post st :
  set_fields cls_name json_data (pre ++ post) st =
  do st' <- set_fields cls_name json_data pre st;
  set_fields cls_name json_data post st'.
Proof.
  revert st. induction pre as [|[[name f] dec] r IH]; intros st; simpl; auto.
  destruct (set_field cls_name json_data name f dec st); simpl; auto.
Qed.

(** C2, as stated, fails: when [color] does not decode, the call raises
    and there is no instance, so [active], which decodes by itself, is
    not materialized anywhere. *)
Lemma failed_field_gives_no_instance :
  call plain_converters Mixed mixed_json None
  = Raise (ValueError_selection "Mixed" "color" (VStr "D")
             (ValueError_enum "Color" (VStr "D")))
  /\ call plain_converters Boolean (VBool true) None = Ok (VBool true)
  /\ forall inst, call plain_converters Mixed mixed_json None <> Ok inst.
Proof.
  repeat split. intros inst. discriminate.
Qed.

(** C2, amended: when the fields before it are decoded (or absent) and
    the value of a field fails to decode, the call on the object raises a
    [ValueError] that carries the class, the attribute name, the raw value
    and the cause; no instance is produced, whatever the later fields
    are. *)
Theorem field_failure_aborts_decode
        (nc : string -> value -> except value)
        (kind n : string) (fields : list (string * Field))
        (d : dict value) (sel : option (list Selection))
        pre name f dec post st raw e :
  init_entries nc fields sel = pre ++ (name, f, dec) :: post ->
  set_fields n (VDict d) pre ([], []) = Ok st ->
  dict_get d (field_graphql_name f) = Some raw ->
  dec raw = Raise e ->
  call nc (TContainer kind n fields) (VDict d) sel
  = Raise (ValueError_selection n name raw e)
  /\ forall inst, call nc (TContainer kind n fields) (VDict d) sel <> Ok inst.
Proof.
  intros Hent Hpre Hget Hdec.
  assert (H : call nc (TContainer kind n fields) (VDict d) sel
              = Raise (ValueError_selection n name raw e)).
  { simpl. unfold ContainerType_init. rewrite Hent, set_fields_app, Hpre.
    simpl. unfold set_field. simpl. unfold dict_mem.
    rewrite Hget. simpl. rewrite Hdec. reflexivity. }
  split; [exact H|]. intros inst. rewrite H. discriminate.
Qed.

Lemma field_failure_aborts_decode_witness :
  call plain_converters Mixed mixed_json None
  = Raise (ValueError_selection "Mixed" "color" (VStr "D")
             (ValueError_enum "Color" (VStr "D"))).
Proof.
  refine (proj1 (@field_failure_aborts_decode plain_converters
                   "type" "Mixed" [("color", f_color); ("active", f_active)]
                   [("color", VStr "D"); ("active", VBool true)] None
                   [] "color" f_color (call0 plain_converters Color)
                   [("active", f_active, call0 plain_converters Boolean)]
                   ([], []) (VStr "D") (ValueError_enum "Color" (VStr "D"))
                   eq_refl eq_refl eq_refl eq_refl)).
Defined.

(** ** Assigning attributes *)

(** Decoding JSON data leaves an instance whose backing store is a JSON
    object whenever some field is cached: on data that cannot be indexed
    by a name, no field is ever set. *)
Lemma set_fields_not_indexable cls_name json_data entries st st' :
  (forall k, exists e, py_getitem json_data k = Raise e) ->
  set_fields cls_name json_data entries st = Ok st' ->
  st' = st.
Proof.
  intros Hno. revert st.
  induction entries as [|[[name f] dec] r IH]; intros st; simpl.
  - intros H. now injection H as <-.
  - unfold set_field.
    destruct (py_contains json_data (field_graphql_name f)) as [[|]|e];
      simpl; try discriminate.
    + destruct (Hno (field_graphql_name f)) as [e He]. rewrite He.
      simpl. discriminate.
    + apply IH.
Qed.

Lemma decoded_backing_store (nc : string -> value -> except value)
      kind n fields json_data sel inst :
  call nc (TContainer kind n fields) json_data sel = Ok inst ->
  (forall cn cf a c j s, json_data <> VInst cn cf a c j s) ->
  exists attrs cache store,
    inst = VInst n fields attrs cache store sel
    /\ (cache = [] \/ exists d, store = VDict d).
Proof.
  simpl. unfold ContainerType_init. intros H Hinst.
  destruct json_data;
    try (destruct (set_fields _ _ _ _) as [[attrs cache]|e] eqn:E;
         simpl in H; [|discriminate]; injection H as <-;
         exists attrs, cache).
  - injection H as <-. exists [], [], (VDict []). auto.
  - eexists. split; [reflexivity|]. left.
    apply set_fields_not_indexable in E; [now injection E|]. simpl. eauto.
  - eexists. split; [reflexivity|]. left.
    apply set_fields_not_indexable in E; [now injection E|]. simpl. eauto.
  - eexists. split; [reflexivity|]. left.
    apply set_fields_not_indexable in E; [now injection E|]. simpl. eauto.
  - eexists. split; [reflexivity|]. left.
    apply set_fields_not_indexable in E; [now injection E|]. simpl. eauto.
  - eexists. split; [reflexivity|]. left.
    apply set_fields_not_indexable in E; [now injection E|]. simpl. eauto.
  - eexists. split; [reflexivity|]. right. eauto.
  - exfalso. eapply Hinst. reflexivity.
Qed.

Lemma is_special_false (name : string) :
  is_special name = false ->
  String.eqb name "__class__" = false
  /\ String.eqb name "__weakref__" = false
  /\ String.eqb name "__dict__" = false
  /\ String.eqb name "__fields_cache__" = false
  /\ String.eqb name "__selection_list__" = false
  /\ String.eqb name "__json_data__" = false.
Proof.
  unfold is_special, is_slot, is_reserved. intros H.
  repeat (apply Bool.orb_false_iff in H; destruct H as [H ?]).
  repeat (match goal with
          | H' : (_ || _)%bool = false |- _ =>
              apply Bool.orb_false_iff in H'; destruct H' as [H' ?]
          end).
  repeat split; assumption.
Qed.

(** What line 629 and the lines after it come to for a name that is
    neither one of the three entries made by [__init__] nor one of the
    names [object.__setattr__] treats on its own. *)
Lemma setattr_plain_name cn cf attrs cache json_data sl
      (name : string) (v : value) :
  is_special name = false ->
  ContainerType_setattr (VInst cn cf attrs cache json_data sl) name v
  = match cached_json cache name v with
    | inl raised =>
        Finished (VInst cn cf (dict_set attrs name v) cache json_data sl) raised
    | inr (key, json_value) =>
        store_setitem cn cf (dict_set attrs name v) cache json_data sl
                      key json_value
                      (ContainerType_setattr json_data key json_value)
    end.
Proof.
  intros H. apply is_special_false in H.
  destruct H as (H1 & H2 & H3 & H4 & H5 & H6).
  cbn [ContainerType_setattr]. now rewrite H1, H2, H3, H4, H5, H6.
Qed.

(** C6, as stated, fails: [__json_data__] is no key of the field cache
    of [Flags(flags_json)], yet assigning to it does not leave the
    backing store alone: line 629 makes the assigned value the backing
    store. *)
Lemma setattr_rebinds_backing_store :
  call plain_converters Flags flags_json None = Ok flags_instance
  /\ dict_get [("active", f_active); ("admin", f_admin)] "__json_data__"
     = None
  /\ backing_store flags_instance = Some flags_json
  /\ ContainerType_setattr flags_instance "__json_data__" (VDict [])
     = Finished (VInst "Flags" [("active", f_active); ("admin", f_admin)]
                       [("active", VBool true); ("admin", VBool false)]
                       [("active", f_active); ("admin", f_admin)]
                       (VDict []) None) None
  /\ VDict [] <> flags_json.
Proof. repeat split. discriminate. Qed.

(** The names that [object.__setattr__] treats on its own, on
    [Flags(flags_json)]: [__class__] and [__weakref__] raise, [__dict__]
    raises unless it is given a [dict], which then is the whole instance
    dictionary, and [__fields_cache__] rebinds the field cache. *)
Lemma setattr_reserved_names :
  ContainerType_setattr flags_instance "__class__" (VStr "Flags")
  = Finished flags_instance (Some TypeError)
  /\ ContainerType_setattr flags_instance "__weakref__" VNone
     = Finished flags_instance (Some AttributeError)
  /\ ContainerType_setattr flags_instance "__dict__" VNone
     = Finished flags_instance (Some TypeError)
  /\ ContainerType_setattr flags_instance "__dict__" (VDict [])
     = DictReplaced [] None
  /\ ContainerType_setattr flags_instance "__fields_cache__" (VDict [])
     = SlotRebound "__fields_cache__" (VDict [])
                   (Finished flags_instance None).
Proof. repeat split. Qed.

(** [Flags(Flags(flags_json))] has an instance for its backing store, and
    an assignment to a cached field goes on as an assignment on that
    instance, which binds the name in the JSON object underneath. *)
Lemma setattr_on_instance_store :
  call plain_converters Flags flags_instance None
  = Ok (VInst "Flags" [("active", f_active); ("admin", f_admin)]
              [("active", VBool true); ("admin", VBool false)]
              [("active", f_active); ("admin", f_admin)]
              flags_instance None)
  /\ ContainerType_setattr
       (VInst "Flags" [("active", f_active); ("admin", f_admin)]
              [("active", VBool true); ("admin", VBool false)]
              [("active", f_active); ("admin", f_admin)]
              flags_instance None) "active" (VBool false)
     = Forwarded
         (VInst "Flags" [("active", f_active); ("admin", f_admin)]
                [("active", VBool false); ("admin", VBool false)]
                [("active", f_active); ("admin", f_admin)]
                flags_instance None)
         (Finished
            (VInst "Flags" [("active", f_active); ("admin", f_admin)]
                   [("active", VBool false); ("admin", VBool false)]
                   [("active", f_active); ("admin", f_admin)]
                   (VDict [("active", VBool false); ("admin", VBool false)])
                   None) None).
Proof. split; reflexivity. Qed.

(** C6, amended: on a constructed instance, for a name other than
    [__json_data__], [__fields_cache__], [__selection_list__],
    [__class__], [__dict__] and [__weakref__]: assigning to a name that
    is no key of the field cache sets the attribute and leaves the
    backing store as it is.  Assigning to a key of the field cache sets
    the attribute and converts the value with the type of the cached
    field; when the backing store is a JSON object the result is bound
    in it under the GraphQL name of the field, and when the conversion
    raises the store is left as it is.  The conversion keeps a value of
    a scalar or enum type as it is, converts a list element by element,
    and turns a container instance into the JSON object of the fields of
    its class that are set on it.  Whatever the store is, the attribute
    is set. *)
Theorem setattr_syncs_cached_fields
        cn cf attrs cache json_data sl (name : string) (v : value) :
  is_special name = false ->
  (dict_get cache name = None ->
   ContainerType_setattr (VInst cn cf attrs cache json_data sl) name v
   = Finished (VInst cn cf (dict_set attrs name v) cache json_data sl) None)
  /\ (forall f d,
         dict_get cache name = Some f ->
         json_data = VDict d ->
         (forall jv,
             to_json v (field_type f) = Ok jv ->
             ContainerType_setattr (VInst cn cf attrs cache json_data sl) name v
             = Finished (VInst cn cf (dict_set attrs name v) cache
                               (VDict (dict_set d (field_graphql_name f) jv))
                               sl) None)
         /\ (forall e,
                to_json v (field_type f) = Raise e ->
                ContainerType_setattr (VInst cn cf attrs cache json_data sl)
                                      name v
                = Finished (VInst cn cf (dict_set attrs name v) cache
                                  json_data sl) (Some e))
         /\ ((exists n c, field_type f = TScalar n c)
             \/ (exists n choices, field_type f = TEnum n choices) ->
             ContainerType_setattr (VInst cn cf attrs cache json_data sl) name v
             = Finished (VInst cn cf (dict_set attrs name v) cache
                               (VDict (dict_set d (field_graphql_name f) v))
                               sl) None)
         /\ (forall t l js,
                field_type f = TListOf t ->
                v = VList l ->
                mapM (fun x => to_json x t) l = Ok js ->
                ContainerType_setattr (VInst cn cf attrs cache json_data sl)
                                      name v
                = Finished (VInst cn cf (dict_set attrs name v) cache
                                  (VDict (dict_set d (field_graphql_name f)
                                                   (VList js)))
                                  sl) None)
         /\ (forall kind n fs vn vf vattrs vcache vstore vsl out,
                field_type f = TContainer kind n fs ->
                v = VInst vn vf vattrs vcache vstore vsl ->
                walk_fields vattrs vf [] = Ok out ->
                ContainerType_setattr (VInst cn cf attrs cache json_data sl)
                                      name v
                = Finished (VInst cn cf (dict_set attrs name v) cache
                                  (VDict (dict_set d (field_graphql_name f)
                                                   (VDict out)))
                                  sl) None))
  /\ (exists self',
         outcome_instance
           (ContainerType_setattr (VInst cn cf attrs cache json_data sl) name v)
         = Some self'
         /\ ContainerType_getattr self' name = Some v).
Proof.
  intros Hsp. rewrite setattr_plain_name by exact Hsp.
  unfold cached_json. split; [|split].
  - intros ->. reflexivity.
  - intros f d -> ->.
    assert (Hok : forall jv,
               to_json v (field_type f) = Ok jv ->
               match to_json v (field_type f) with
               | Raise e =>
                   @inl (option exn) (string * value) (Some e)
               | Ok json_value => inr (field_graphql_name f, json_value)
               end = inr (field_graphql_name f, jv))
      by (intros jv ->; reflexivity).
    split; [|split; [|split; [|split]]].
    + intros jv Hj. now rewrite (Hok _ Hj).
    + intros e ->. reflexivity.
    + intros [(n & c & Ht)|(n & ch & Ht)]; rewrite Ht.
      * replace (to_json v (TScalar n c)) with (Ok v)
          by (destruct v; reflexivity).
        reflexivity.
      * replace (to_json v (TEnum n ch)) with (Ok v)
          by (destruct v; reflexivity).
        reflexivity.
    + intros t l js Ht -> Hjs. rewrite Ht, to_json_list, Hjs. reflexivity.
    + intros kind n fs vn vf vattrs vcache vstore vsl out Ht -> Hw.
      rewrite Ht, to_json_instance, Hw. reflexivity.
  - destruct (dict_get cache name) as [f|].
    + destruct (to_json v (field_type f)) as [jv|e].
      * unfold store_setitem.
        destruct json_data; eexists; (split; [reflexivity|]);
          simpl; apply dict_get_set_same.
      * eexists; split; [reflexivity|]. simpl. apply dict_get_set_same.
    + eexists; split; [reflexivity|]. simpl. apply dict_get_set_same.
Qed.

Lemma setattr_syncs_cached_fields_witness :
  call plain_converters Holder (VDict [("flags", flags_json)]) None
  = Ok holder_instance
  /\ call plain_converters Flags
          (VDict [("active", VBool false); ("admin", VBool true)]) None
     = Ok flags_swapped
  /\ ContainerType_setattr holder_instance "flags" flags_swapped
     = Finished
         (VInst "Holder" [("flags", f_flags)] [("flags", flags_swapped)]
                [("flags", f_flags)]
                (VDict [("flags", VDict [("active", VBool false);
                                         ("admin", VBool true)])])
                None) None
  /\ ContainerType_setattr flags_instance "note" (VStr "x")
     = Finished
         (VInst "Flags" [("active", f_active); ("admin", f_admin)]
                [("active", VBool true); ("admin", VBool false);
                 ("note", VStr "x")]
                [("active", f_active); ("admin", f_admin)]
                flags_json None) None.
Proof.
  split; [reflexivity|]. split; [reflexivity|]. split.
  - refine (proj2 (proj2 (proj2 (proj2
             (proj1 (proj2 (@setattr_syncs_cached_fields
                "Holder" [("flags", f_flags)] [("flags", flags_instance)]
                [("flags", f_flags)] (VDict [("flags", flags_json)]) None
                "flags" flags_swapped eq_refl))
                f_flags [("flags", flags_json)] eq_refl eq_refl))))
             "type" "Flags" [("active", f_active); ("admin", f_admin)]
             "Flags" [("active", f_active); ("admin", f_admin)]
             [("active", VBool false); ("admin", VBool true)]
             [("active", f_active); ("admin", f_admin)]
             (VDict [("active", VBool false); ("admin", VBool true)]) None
             [("active", VBool false); ("admin", VBool true)]
             eq_refl eq_refl eq_refl).
  - refine (proj1 (@setattr_syncs_cached_fields
                     "Flags" [("active", f_active); ("admin", f_admin)]
                     [("active", VBool true); ("admin", VBool false)]
                     [("active", f_active); ("admin", f_admin)]
                     flags_json None "note" (VStr "x") eq_refl) eq_refl).
Defined.

(** After [instance.active = False] on [Flags(flags_json)], the JSON form
    of the instance carries the new value. *)
Lemma setattr_then_to_json :
  match ContainerType_setattr flags_instance "active" (VBool false) with
  | Finished self' None =>
      to_json self' Flags
      = Ok (VDict [("active", VBool false); ("admin", VBool false)])
      /\ backing_store self'
         = Some (VDict [("active", VBool false); ("admin", VBool false)])
  | _ => False
  end.
Proof. split; reflexivity. Qed.

(** ** Decoding and serializing again *)

Lemma to_json_scalar v n c : to_json v (TScalar n c) = Ok v.
Proof. destruct v; reflexivity. Qed.

Lemma to_json_enum v n cs : to_json v (TEnum n cs) = Ok v.
Proof. destruct v; reflexivity. Qed.

Lemma to_json_non_null v t : to_json v (TNonNull t) = to_json v t.
Proof. destruct v; reflexivity. Qed.

Lemma passes_through_roundtrip (nc : string -> value -> except value)
      (t : gtype) :
  forall raw x,
    passes_through t raw = true ->
    call0 nc t raw = Ok x ->
    x = raw /\ to_json raw t = Ok raw.
Proof.
  induction t as [n c|n cs|n ts|k n fs|t IH|t IH]; intros raw x Hp Hc;
    simpl in Hp; try discriminate.
  - rewrite to_json_scalar. split; auto.
    destruct c; try discriminate.
    + destruct raw; simpl in Hc; congruence.
    + destruct raw; try discriminate; simpl in Hc; congruence.
  - rewrite to_json_enum. split; auto.
    simpl in Hc. unfold Enum_new in Hc.
    destruct raw; try congruence;
      match type of Hc with
      | (if ?b then _ else _) = _ => destruct b; congruence
      end.
  - rewrite to_json_non_null. simpl in Hc.
    destruct raw; try discriminate; apply IH; auto.
  - destruct raw; try discriminate.
    + simpl in Hc. split; [congruence|reflexivity].
    + simpl in Hc.
      destruct (mapM (call0 nc t) l) as [rs|e] eqn:E; simpl in Hc; [|discriminate].
      injection Hc as <-.
      assert (Hl : rs = l /\ mapM (fun v => to_json v t) l = Ok l).
      { clear - IH Hp E. revert rs E.
        induction l as [|v r IHl]; intros rs E; simpl in *.
        - split; congruence.
        - apply andb_prop in Hp. destruct Hp as [Hv Hr].
          destruct (call0 nc t v) as [y|e] eqn:Ev; simpl in E; [|discriminate].
          destruct (mapM (call0 nc t) r) as [ys|e] eqn:Er; simpl in E; [|discriminate].
          injection E as <-.
          destruct (IH _ _ Hv Ev) as [-> Hj].
          destruct (IHl Hr _ eq_refl) as [-> Hjs].
          rewrite Hj, Hjs. split; reflexivity. }
      destruct Hl as [-> Hj]. split; auto.
      rewrite to_json_list, Hj. reflexivity.
Qed.

Lemma dict_get_filter (p : string -> bool) (d : dict value) (k : string) :
  dict_get (filter (fun kv => p (fst kv)) d) k
  = if p k then dict_get d k else None.
Proof.
  induction d as [|[k' v] r IH]; simpl.
  - now destruct (p k).
  - destruct (p k') eqn:Ep; simpl.
    + destruct (String.eqb k' k) eqn:E.
      * apply String.eqb_eq in E. subst. now rewrite Ep.
      * exact IH.
    + destruct (String.eqb k' k) eqn:E.
      * apply String.eqb_eq in E. subst. rewrite Ep in *. exact IH.
      * exact IH.
Qed.

Lemma In_dict_set V (c : dict V) k v k' v' :
  In (k', v') (dict_set c k v) -> (k' = k /\ v' = v) \/ In (k', v') c.
Proof.
  induction c as [|[k0 v0] r IH]; simpl.
  - intros [H|[]]. injection H as <- <-. auto.
  - destruct (String.eqb k0 k) eqn:E; simpl.
    + apply String.eqb_eq in E. subst k0.
      intros [H|H]; [injection H as <- <-|]; auto.
    + intros [H|H]; auto. destruct (IH H); auto.
Qed.

Lemma In_dict_set_same V (c : dict V) k v : In (k, v) (dict_set c k v).
Proof.
  induction c as [|[k0 v0] r IH]; simpl; auto.
  destruct (String.eqb k0 k) eqn:E; simpl; auto.
  apply String.eqb_eq in E. subst. auto.
Qed.

Lemma In_dict_set_other V (c : dict V) k v k' v' :
  k' <> k -> In (k', v') c -> In (k', v') (dict_set c k v).
Proof.
  intros Hne. induction c as [|[k0 v0] r IH]; simpl; auto.
  intros [H|H].
  - injection H as -> ->.
    destruct (String.eqb k' k) eqn:E; simpl; auto.
    apply String.eqb_eq in E. contradiction.
  - destruct (String.eqb k0 k); simpl; auto.
Qed.

Lemma unique_key_same_value V (l : list (string * V)) k v v' :
  NoDup (map fst l) -> In (k, v) l -> In (k, v') l -> v = v'.
Proof.
  induction l as [|[k0 v0] r IH]; simpl; [tauto|].
  intros Hnd. inversion Hnd as [|x xs Hx Hxs]; subst.
  intros [H|H] [H'|H'].
  - congruence.
  - injection H as -> ->. exfalso. apply Hx.
    change k with (fst (k, v')). now apply in_map.
  - injection H' as -> ->. exfalso. apply Hx.
    change k with (fst (k, v)). now apply in_map.
  - eauto.
Qed.

Section RoundTrip.
Variable nc : string -> value -> except value.
Variable cls_name : string.
Variable fields : list (string * Field).
Variable d : dict value.
Hypothesis unique_keys : NoDup (map fst fields).

Lemma populated_empty : populated nc fields d ([], []).
Proof. split; simpl; [intros name f []|intros name x H; discriminate H]. Qed.

Lemma set_field_populated name f st st' :
  In (name, f) fields ->
  populated nc fields d st ->
  set_field cls_name (VDict d) name f (call0 nc (field_type f)) st = Ok st' ->
  populated nc fields d st'.
Proof.
  intros Hin [Hc Ha]. unfold set_field. simpl. unfold dict_mem.
  destruct (dict_get d (field_graphql_name f)) as [raw|] eqn:Eraw; simpl;
    [|intros H; injection H as <-; split; auto].
  destruct (call0 nc (field_type f) raw) as [x|e] eqn:Ex; [|discriminate].
  intros H. injection H as <-. destruct st as [attrs cache]. simpl in *.
  split; simpl.
  - intros name' f' Hin'. apply In_dict_set in Hin'.
    destruct Hin' as [[-> ->]|Hold].
    + split; auto. exists raw, x. rewrite dict_get_set_same. auto.
    + destruct (Hc _ _ Hold) as (Hf & raw' & x' & Hr & Hx & Hg).
      split; auto.
      destruct (String.eqb name name') eqn:E.
      * apply String.eqb_eq in E. subst name'.
        assert (f' = f) by (eapply unique_key_same_value; eauto). subst f'.
        exists raw, x. rewrite dict_get_set_same. auto.
      * apply String.eqb_neq in E.
        exists raw', x'. rewrite dict_get_set_other; auto.
  - intros name' x' Hg.
    destruct (String.eqb name name') eqn:E.
    + apply String.eqb_eq in E. subst name'. exists f. apply In_dict_set_same.
    + apply String.eqb_neq in E. rewrite dict_get_set_other in Hg; auto.
      destruct (Ha _ _ Hg) as [f' Hf']. exists f'.
      apply In_dict_set_other; auto.
Qed.

Lemma set_fields_populated entries st st' :
  Forall (fun e => In (fst (fst e), snd (fst e)) fields
                   /\ snd e = call0 nc (field_type (snd (fst e)))) entries ->
  populated nc fields d st ->
  set_fields cls_name (VDict d) entries st = Ok st' ->
  populated nc fields d st'.
Proof.
  intros Hall. revert st. induction Hall as [|[[name f] dec] r [Hin Hdec] _ IH];
    intros st Hp; simpl.
  - intros H. now injection H as <-.
  - simpl in Hin, Hdec. subst dec.
    destruct (set_field cls_name (VDict d) name f _ st) as [st1|e] eqn:E;
      simpl; [|discriminate].
    apply IH. eapply set_field_populated; eauto.
Qed.

Lemma init_entries_own sel :
  selects_own_fields fields sel ->
  Forall (fun e => In (fst (fst e), snd (fst e)) fields
                   /\ snd e = call0 nc (field_type (snd (fst e))))
         (init_entries nc fields sel).
Proof.
  destruct sel as [sels|]; simpl; intros H.
  - unfold selection_entries. apply Forall_map.
    eapply Forall_impl; [|exact H]. simpl. intros s [Hn Hin].
    rewrite Hn. auto.
  - unfold class_entries. apply Forall_map. apply Forall_forall.
    intros [k f] Hin. simpl. split; auto.
    rewrite Forall_forall in H. specialize (H _ Hin). simpl in H.
    now rewrite <- H.
Qed.

(** The walk of [__to_json_value__] over part of the field table. *)
Lemma walk_fields_populated attrs cache fs :
  populated nc fields d (attrs, cache) ->
  Forall (reserializes nc d) (map snd fields) ->
  incl fs fields ->
  forall acc, exists out,
    walk_fields attrs fs acc = Ok out
    /\ forall k,
        dict_get out k =
        if existsb (fun nf => dict_mem attrs (fst nf)
                              && String.eqb (field_graphql_name (snd nf)) k) fs
        then dict_get d k else dict_get acc k.
Proof.
  intros [Hc Ha] Hrt. induction fs as [|[name f] r IH]; intros Hincl acc; simpl.
  - eauto.
  - assert (Hin : In (name, f) fields) by (apply Hincl; left; reflexivity).
    assert (Hr : incl r fields) by (intros e He; apply Hincl; right; exact He).
    unfold attr_to_json, dict_mem.
    destruct (dict_get attrs name) as [x|] eqn:Ex; simpl.
    + destruct (Ha _ _ Ex) as [f' Hf'].
      destruct (Hc _ _ Hf') as (Hfields & raw & x' & Hraw & Hx & Hg).
      simpl in Hg. rewrite Ex in Hg. injection Hg as <-.
      assert (f' = f) by (eapply unique_key_same_value; eauto). subst f'.
      assert (Hj : to_json x (field_type f) = Ok raw).
      { rewrite Forall_forall in Hrt. apply (Hrt f); auto.
        change f with (snd (name, f)). now apply in_map. }
      rewrite Hj. simpl.
      destruct (IH Hr (dict_set acc (field_graphql_name f) raw)) as (out & Hw & Hout).
      exists out. split; auto. intros k. rewrite Hout.
      destruct (String.eqb (field_graphql_name f) k) eqn:E; simpl.
      * apply String.eqb_eq in E. subst k. rewrite dict_get_set_same.
        rewrite Hraw. now destruct (existsb _ r).
      * apply String.eqb_neq in E. rewrite dict_get_set_other; auto.
    + apply IH; auto.
Qed.

Lemma materialized_wire_populated attrs cache k :
  populated nc fields d (attrs, cache) ->
  existsb (fun nf => dict_mem attrs (fst nf)
                     && String.eqb (field_graphql_name (snd nf)) k) fields
  = materialized_wire cache k.
Proof.
  intros [Hc Ha]. unfold materialized_wire.
  apply eq_true_iff_eq. rewrite !existsb_exists. split.
  - intros [[name f] [Hin H]]. apply andb_prop in H. destruct H as [Hm Hw].
    simpl in *. unfold dict_mem in Hm.
    destruct (dict_get attrs name) as [x|] eqn:Ex; [|discriminate].
    destruct (Ha _ _ Ex) as [f' Hf'].
    destruct (Hc _ _ Hf') as (Hfields & _).
    assert (f' = f) by (eapply unique_key_same_value; eauto). subst f'.
    exists (name, f). auto.
  - intros [[name f] [Hin Hw]]. simpl in *.
    destruct (Hc _ _ Hin) as (Hfields & raw & x & _ & _ & Hg). simpl in Hg.
    exists (name, f). split; auto. simpl. unfold dict_mem.
    now rewrite Hg, Hw.
Qed.
End RoundTrip.

Lemma passes_through_reserializes (nc : string -> value -> except value)
      (d : dict value) (f : Field) :
  (forall raw, dict_get d (field_graphql_name f) = Some raw ->
               passes_through (field_type f) raw = true) ->
  reserializes nc d f.
Proof.
  intros H raw x Hraw Hx.
  destruct (passes_through_roundtrip nc _ _ (H _ Hraw) Hx) as [-> Hj].
  exact Hj.
Qed.

(** C1, as stated, fails: [Holder] decodes the object that binds [flags]
    to null into an instance whose [flags] is an empty [Flags] instance,
    and serializing gives [{"flags": {}}], not the materialized part
    [{"flags": null}] of the object. *)
Lemma roundtrip_fails_on_null_member :
  call plain_converters Holder holder_json None
  = Ok (VInst "Holder" [("flags", f_flags)]
              [("flags", VInst "Flags" [("active", f_active); ("admin", f_admin)]
                               [] [] (VDict []) None)]
              [("flags", f_flags)] holder_json None)
  /\ to_json (VInst "Holder" [("flags", f_flags)]
                [("flags", VInst "Flags" [("active", f_active); ("admin", f_admin)]
                                 [] [] (VDict []) None)]
                [("flags", f_flags)] holder_json None) Holder
     = Ok (VDict [("flags", VDict [])])
  /\ materialized_subset [("flags", f_flags)] [("flags", VNone)]
     = [("flags", VNone)]
  /\ ~ same_mapping [("flags", VDict [])]
         (materialized_subset [("flags", f_flags)] [("flags", VNone)]).
Proof.
  repeat split. intros H. specialize (H "flags"). discriminate H.
Qed.

(** C1, amended: for a container class whose field table has unique keys,
    and a JSON object, decoding without a selection list (each field
    under its key) or with one that selects fields of the class under
    their own names, and serializing the instance again, gives an object
    equal, as a mapping, to the part of the JSON object whose keys are
    the GraphQL names of the materialized fields, provided that
    serializing what each field's type decoded gives back the raw value
    (as it does for pass-through scalars, enums, [Boolean] on booleans and
    lists of these). *)
Theorem roundtrip_materialized_subset
        (nc : string -> value -> except value)
        (kind n : string) (fields : list (string * Field))
        (d : dict value) (sel : option (list Selection)) (inst : value) :
  NoDup (map fst fields) ->
  selects_own_fields fields sel ->
  Forall (reserializes nc d) (map snd fields) ->
  call nc (TContainer kind n fields) (VDict d) sel = Ok inst ->
  exists attrs cache out,
    inst = VInst n fields attrs cache (VDict d) sel
    /\ to_json inst (TContainer kind n fields) = Ok (VDict out)
    /\ same_mapping out (materialized_subset cache d).
Proof.
  intros Hnd Hsel Hrt. simpl. unfold ContainerType_init.
  destruct (set_fields n (VDict d) (init_entries nc fields sel) ([], []))
    as [[attrs cache]|e] eqn:E; simpl; [|discriminate].
  intros H. injection H as <-.
  assert (Hp : populated nc fields d (attrs, cache)).
  { exact (@set_fields_populated nc n fields d Hnd _ _ _
             (@init_entries_own nc fields sel Hsel)
             (populated_empty nc fields d) E). }
  destruct (walk_fields_populated Hnd Hp Hrt (incl_refl fields) [])
    as (out & Hw & Hout).
  exists attrs, cache, out. split; [reflexivity|]. split.
  - rewrite to_json_instance, Hw. reflexivity.
  - intros k. rewrite Hout. unfold materialized_subset.
    rewrite dict_get_filter.
    rewrite (materialized_wire_populated Hnd k Hp). simpl.
    reflexivity.
Qed.

Lemma roundtrip_materialized_subset_witness :
  exists attrs cache out,
    flags_instance
    = VInst "Flags" [("active", f_active); ("admin", f_admin)] attrs cache
            (VDict [("active", VBool true); ("admin", VBool false)]) None
    /\ to_json flags_instance Flags = Ok (VDict out)
    /\ same_mapping out
         (materialized_subset cache
            [("active", VBool true); ("admin", VBool false)]).
Proof.
  refine (@roundtrip_materialized_subset plain_converters "type" "Flags"
            [("active", f_active); ("admin", f_admin)]
            [("active", VBool true); ("admin", VBool false)] None
            flags_instance _ _ _ eq_refl).
  - repeat constructor; simpl; intuition discriminate.
  - repeat constructor.
  - repeat constructor; apply passes_through_reserializes; simpl;
      intros raw H; injection H as <-; reflexivity.
Defined.

(** * Further properties *)

(** ** Dictionaries *)

Lemma dict_get_None_keys V (d : dict V) k :
  dict_get d k = None <-> ~ In k (dict_keys d).
Proof.
  induction d as [|[k' v] r IH]; simpl.
  - tauto.
  - destruct (String.eqb k' k) eqn:E.
    + apply String.eqb_eq in E. split; [discriminate|]. intros H. tauto.
    + apply String.eqb_neq in E. rewrite IH. tauto.
Qed.

Lemma dict_set_absent V (d : dict V) k v :
  dict_get d k = None -> dict_set d k v = d ++ [(k, v)].
Proof.
  induction d as [|[k' v'] r IH]; simpl; auto.
  destruct (String.eqb k' k); [discriminate|].
  intros H. now rewrite IH.
Qed.

Lemma dict_set_present_keys V (d : dict V) k v x :
  dict_get d k = Some x -> dict_keys (dict_set d k v) = dict_keys d.
Proof.
  induction d as [|[k' v'] r IH]; simpl; [discriminate|].
  destruct (String.eqb k' k) eqn:E; simpl; auto.
  intros H. now rewrite IH.
Qed.

Lemma dict_set_distinct V (d : dict V) k v :
  distinct_keys d -> distinct_keys (dict_set d k v).
Proof.
  unfold distinct_keys. intros Hd.
  destruct (dict_get d k) as [x|] eqn:E.
  - erewrite dict_set_present_keys; eauto.
  - rewrite dict_set_absent by exact E. unfold dict_keys. rewrite map_app. simpl.
    apply NoDup_app; auto.
    + constructor; [simpl; tauto|constructor].
    + intros a Ha [<-|[]]. apply dict_get_None_keys in E. contradiction.
Qed.

Lemma dict_del_last V (d : dict V) k v :
  dict_get d k = None -> dict_del (d ++ [(k, v)]) k = Some d.
Proof.
  induction d as [|[k' v'] r IH]; simpl.
  - now rewrite String.eqb_refl.
  - destruct (String.eqb k' k); [discriminate|].
    intros H. now rewrite IH.
Qed.

Lemma dict_del_get_other V (d d' : dict V) k k' :
  dict_del d k = Some d' -> k' <> k -> dict_get d' k' = dict_get d k'.
Proof.
  revert d'. induction d as [|[k0 v0] r IH]; simpl; [discriminate|].
  intros d'. destruct (String.eqb k0 k) eqn:E.
  - apply String.eqb_eq in E. subst k0. intros H Hne. injection H as <-.
    destruct (String.eqb k k') eqn:E'; auto.
    apply String.eqb_eq in E'. congruence.
  - destruct (dict_del r k) as [r'|]; [|discriminate].
    simpl. intros H Hne. injection H as <-. simpl.
    destruct (String.eqb k0 k'); auto.
Qed.

Lemma dict_del_keys V (d d' : dict V) k :
  dict_del d k = Some d' ->
  forall a, In a (dict_keys d') -> In a (dict_keys d).
Proof.
  revert d'. induction d as [|[k0 v0] r IH]; simpl; [discriminate|].
  intros d'. destruct (String.eqb k0 k).
  - intros H. injection H as <-. auto.
  - destruct (dict_del r k) as [r'|]; [|discriminate].
    simpl. intros H. injection H as <-. simpl. intros a [Ha|Ha]; eauto.
Qed.

Lemma dict_del_distinct V (d d' : dict V) k :
  dict_del d k = Some d' -> distinct_keys d ->
  distinct_keys d' /\ dict_get d' k = None.
Proof.
  unfold distinct_keys.
  revert d'. induction d as [|[k0 v0] r IH]; simpl; [discriminate|].
  intros d'. destruct (String.eqb k0 k) eqn:E.
  - apply String.eqb_eq in E. subst k0. intros H Hd. injection H as <-.
    inversion Hd; subst. split; auto. now apply dict_get_None_keys.
  - destruct (dict_del r k) as [r'|] eqn:Er; [|discriminate].
    simpl. intros H Hd. injection H as <-. inversion Hd as [|x xs Hx Hxs]; subst.
    destruct (IH _ eq_refl Hxs) as [Hr' Hk]. split.
    + simpl. constructor; auto. intros Hin. apply Hx.
      eapply dict_del_keys; eauto.
    + simpl. now rewrite E.
Qed.

Lemma dict_update_app V (a b : dict V) :
  distinct_keys (a ++ b) -> dict_update a b = a ++ b.
Proof.
  unfold dict_update, distinct_keys, dict_keys. revert a.
  induction b as [|[k v] r IH]; intros a Hd; simpl.
  - now rewrite app_nil_r.
  - assert (Ha : dict_get a k = None).
    { apply dict_get_None_keys. intros Hin.
      rewrite map_app in Hd. simpl in Hd.
      apply NoDup_remove_2 in Hd. apply Hd. apply in_or_app. now left. }
    rewrite dict_set_absent by exact Ha.
    rewrite IH; rewrite <- app_assoc; simpl; auto.
Qed.

Lemma dict_update_nil V (d : dict V) :
  distinct_keys d -> dict_update [] d = d.
Proof. intros H. now rewrite dict_update_app. Qed.

Lemma dict_get_In V (d : dict V) k v : dict_get d k = Some v -> In (k, v) d.
Proof.
  induction d as [|[k' v'] r IH]; simpl; [discriminate|].
  destruct (String.eqb k' k) eqn:E; auto.
  apply String.eqb_eq in E. subst. intros H. injection H as <-. auto.
Qed.

Lemma dict_del_present V (d : dict V) k v :
  dict_get d k = Some v -> exists d', dict_del d k = Some d'.
Proof.
  induction d as [|[k' v'] r IH]; simpl; [discriminate|].
  destruct (String.eqb k' k); eauto.
  intros H. destruct (IH H) as [d' ->]. simpl. eauto.
Qed.

Lemma dict_set_replace_last V (d : dict V) k x y :
  dict_get d k = None -> dict_set (d ++ [(k, x)]) k y = d ++ [(k, y)].
Proof.
  induction d as [|[k' v'] r IH]; simpl.
  - now rewrite String.eqb_refl.
  - destruct (String.eqb k' k); [discriminate|].
    intros H. now rewrite IH.
Qed.

(** ** The kind index *)

Lemma kinds_merge_get_same kinds k n c :
  dict_get (kinds_merge kinds k [(n, c)]) k
  = Some (dict_set (kind_sub kinds k) n c).
Proof.
  unfold kinds_merge, dict_setdefault, kind_sub.
  destruct (dict_get kinds k) as [sub|]; rewrite dict_get_set_same; reflexivity.
Qed.

Lemma kinds_merge_get_other kinds k k' v :
  k <> k' -> dict_get (kinds_merge kinds k v) k' = dict_get kinds k'.
Proof.
  intros Hne. unfold kinds_merge, dict_setdefault.
  destruct (dict_get kinds k) as [sub|];
    repeat rewrite dict_get_set_other by exact Hne; reflexivity.
Qed.

Lemma kinds_merge_distinct kinds k v :
  distinct_keys kinds -> distinct_keys (kinds_merge kinds k v).
Proof.
  intros H. unfold kinds_merge, dict_setdefault.
  destruct (dict_get kinds k) as [sub|]; repeat apply dict_set_distinct; exact H.
Qed.

Lemma kinds_merge_In kinds k n c k' s' :
  In (k', s') (kinds_merge kinds k [(n, c)]) ->
  (k' = k /\ s' = dict_set (kind_sub kinds k) n c) \/ In (k', s') kinds.
Proof.
  unfold kinds_merge, dict_setdefault, kind_sub.
  destruct (dict_get kinds k) as [sub|] eqn:E; intros H.
  - apply In_dict_set in H. tauto.
  - rewrite (@dict_set_absent _ kinds k [] E) in H.
    rewrite dict_set_replace_last in H by exact E.
    apply in_app_or in H. destruct H as [H|[H|[]]]; [tauto|].
    injection H as <- <-. auto.
Qed.

(** ** Registering, looking up, unregistering *)

Lemma same_object_refl (c : PyClass) : same_object c c = true.
Proof. apply Nat.eqb_refl. Qed.

(** X1: registering a class whose name is not bound succeeds; the
    class is then found under its name by item and by membership, every
    other name is looked up as before, the class comes last in the
    iteration, it is found in the submapping of its kind, and the wrapper
    cache is as it was. *)
Theorem register_then_lookup (self : Schema) (typ : PyClass) :
  Schema_contains self (c_name typ) = false ->
  exists self',
    Schema_iadd self typ = (self', None)
    /\ Schema_getitem self' (c_name typ) = Ok typ
    /\ Schema_contains self' (c_name typ) = true
    /\ (forall k, k <> c_name typ ->
                  Schema_getitem self' k = Schema_getitem self k)
    /\ Schema_iter self' = Schema_iter self ++ [typ]
    /\ s_cache self' = s_cache self
    /\ exists sub, Schema_getattr self' (c_kind typ) = Ok (attr_kind sub)
                   /\ dict_get sub (c_name typ) = Some typ.
Proof.
  unfold Schema_contains, dict_mem. intros H.
  destruct (dict_get (s_all self) (c_name typ)) eqn:E; [discriminate|].
  unfold Schema_iadd, dict_setdefault. rewrite E, same_object_refl. simpl.
  eexists. split; [reflexivity|].
  unfold Schema_getitem, Schema_contains, dict_mem, Schema_iter, Schema_getattr.
  simpl. rewrite dict_get_set_same, kinds_merge_get_same.
  repeat split; auto.
  - intros k Hk. rewrite dict_get_set_other; auto.
  - rewrite dict_set_absent by exact E. rewrite map_app. reflexivity.
  - eexists. split; [reflexivity|]. apply dict_get_set_same.
Qed.

Lemma register_then_lookup_witness :
  exists self',
    Schema_iadd registry_with_Int Boolean_class = (self', None)
    /\ Schema_getitem self' "Boolean" = Ok Boolean_class
    /\ Schema_getitem self' "Int" = Ok Int_class
    /\ Schema_iter self' = [Int_class; Boolean_class].
Proof.
  destruct (@register_then_lookup registry_with_Int Boolean_class eq_refl)
    as (self' & H1 & H2 & _ & H4 & H5 & _).
  exists self'. repeat split; auto.
  rewrite H4; [reflexivity|discriminate].
Defined.

(** X2: registering a class whose name is not bound and then unregistering
    it succeeds and gives back the name table and the wrapper cache as
    they were. *)
Theorem register_then_unregister (self : Schema) (typ : PyClass) :
  Schema_contains self (c_name typ) = false ->
  exists self1 self2,
    Schema_iadd self typ = (self1, None)
    /\ Schema_isub self1 typ = (self2, None)
    /\ s_all self2 = s_all self
    /\ s_cache self2 = s_cache self
    /\ Schema_contains self2 (c_name typ) = false.
Proof.
  intros Habs. generalize Habs. unfold Schema_contains, dict_mem. intros H.
  destruct (dict_get (s_all self) (c_name typ)) eqn:E; [discriminate|].
  destruct (@dict_del_present _ (dict_set (kind_sub (s_kinds self) (c_kind typ))
                                          (c_name typ) typ) (c_name typ) typ)
    as [sub' Hsub]; [apply dict_get_set_same|].
  unfold Schema_iadd, dict_setdefault. rewrite E, same_object_refl. simpl.
  eexists. eexists. split; [reflexivity|].
  unfold Schema_isub. simpl.
  rewrite dict_set_absent by exact E. rewrite dict_del_last by exact E.
  rewrite kinds_merge_get_same, Hsub. split; [reflexivity|]. simpl.
  unfold Schema_contains, dict_mem. simpl. rewrite E. auto.
Qed.

Lemma register_then_unregister_witness :
  exists self1 self2,
    Schema_iadd empty_schema Int_class = (self1, None)
    /\ Schema_isub self1 Int_class = (self2, None)
    /\ s_all self2 = [].
Proof.
  destruct (@register_then_unregister empty_schema Int_class eq_refl)
    as (self1 & self2 & H1 & H2 & H3 & _).
  exists self1, self2. auto.
Defined.

(** ** What the registry operations maintain *)

Lemma registry_ok_empty : registry_ok empty_schema.
Proof.
  repeat split; simpl; try constructor.
  - intros k sub [].
  - intros name c H. discriminate H.
Qed.

Lemma registry_ok_rebuild (self : Schema) :
  registry_ok self ->
  registry_ok (mkSchema (s_all self) (s_kinds self) (s_cache self)).
Proof. now destruct self. Qed.

Lemma iadd_keeps_registry_ok (self : Schema) (typ : PyClass) :
  registry_ok self ->
  (forall t, dict_get (s_all self) (c_name typ) = Some t ->
             same_object t typ = true -> t = typ) ->
  registry_ok (fst (Schema_iadd self typ)).
Proof.
  intros (Hall & Hkinds & Hsubs & Hcover) Hid.
  unfold Schema_iadd, dict_setdefault.
  assert (Hmerged :
            forall all',
              distinct_keys all' ->
              (forall name c, dict_get all' name = Some c ->
                              (name = c_name typ /\ c = typ)
                              \/ (name <> c_name typ
                                  /\ dict_get (s_all self) name = Some c)) ->
              registry_ok
                (mkSchema all'
                   (kinds_merge (s_kinds self) (c_kind typ) [(c_name typ, typ)])
                   (s_cache self))).
  { intros all' Hd Hspec. repeat split; simpl; auto.
    - now apply kinds_merge_distinct.
    - intros k sub Hin. apply kinds_merge_In in Hin.
      destruct Hin as [[-> ->]|Hin]; [|eauto].
      apply dict_set_distinct. unfold kind_sub.
      destruct (dict_get (s_kinds self) (c_kind typ)) as [sub0|] eqn:E.
      + apply dict_get_In in E. eauto.
      + constructor.
    - intros name c Hget. simpl in Hget.
      destruct (Hspec _ _ Hget) as [[-> ->]|[Hne Hold]].
      + eexists. split; [apply kinds_merge_get_same|apply dict_get_set_same].
      + destruct (Hcover _ _ Hold) as (sub & Hk & Hs).
        destruct (String.eqb (c_kind typ) (c_kind c)) eqn:Ek.
        * apply String.eqb_eq in Ek. rewrite <- Ek.
          eexists. split; [apply kinds_merge_get_same|].
          unfold kind_sub. rewrite Ek, Hk.
          rewrite dict_get_set_other; auto.
        * apply String.eqb_neq in Ek. exists sub. split; auto.
          etransitivity; [apply kinds_merge_get_other; auto|exact Hk]. }
  destruct (dict_get (s_all self) (c_name typ)) as [t|] eqn:E.
  - destruct (same_object t typ) eqn:Es; simpl.
    + apply Hmerged; auto. intros name c Hget.
      destruct (String.eqb name (c_name typ)) eqn:En.
      * apply String.eqb_eq in En. subst name. left. split; auto.
        rewrite E in Hget. injection Hget as <-. now apply Hid.
      * apply String.eqb_neq in En. auto.
    + repeat split; auto.
  - rewrite same_object_refl. simpl. apply Hmerged.
    + now apply dict_set_distinct.
    + intros name c Hget.
      destruct (String.eqb name (c_name typ)) eqn:En.
      * apply String.eqb_eq in En. subst name. left. split; auto.
        rewrite dict_get_set_same in Hget. congruence.
      * apply String.eqb_neq in En. right. split; auto.
        rewrite dict_get_set_other in Hget; auto.
Qed.

Lemma isub_keeps_registry_ok (self : Schema) (typ : PyClass) :
  registry_ok self -> registry_ok (fst (Schema_isub self typ)).
Proof.
  intros (Hall & Hkinds & Hsubs & Hcover). unfold Schema_isub.
  destruct (dict_del (s_all self) (c_name typ)) as [all'|] eqn:E; simpl.
  - destruct (dict_del_distinct _ E Hall) as [Hall' Habsent].
    assert (Hold : forall name c, dict_get all' name = Some c ->
                                  name <> c_name typ
                                  /\ dict_get (s_all self) name = Some c).
    { intros name c Hget.
      assert (name <> c_name typ) by (intros ->; congruence).
      split; auto. now rewrite <- (dict_del_get_other _ E). }
    assert (H1 : registry_ok (mkSchema all' (s_kinds self) (s_cache self))).
    { repeat split; simpl; auto.
      intros name c Hget. destruct (Hold _ _ Hget) as [_ Hget']. eauto. }
    destruct (dict_get (s_kinds self) (c_kind typ)) as [sub|] eqn:Ek; auto.
    destruct (dict_del sub (c_name typ)) as [sub'|] eqn:Es; auto. simpl.
    assert (Hsub : distinct_keys sub) by (apply dict_get_In in Ek; eauto).
    repeat split; simpl; auto.
    + now apply dict_set_distinct.
    + intros k s Hin. apply In_dict_set in Hin.
      destruct Hin as [[-> ->]|Hin]; [|eauto].
      now destruct (dict_del_distinct _ Es Hsub).
    + intros name c Hget. destruct (Hold _ _ Hget) as [Hne Hget'].
      destruct (Hcover _ _ Hget') as (s & Hk & Hs). simpl.
      destruct (String.eqb (c_kind typ) (c_kind c)) eqn:Ec.
      * apply String.eqb_eq in Ec. rewrite <- Ec in *.
        exists sub'. rewrite dict_get_set_same. split; auto.
        rewrite (dict_del_get_other _ Es); congruence.
      * apply String.eqb_neq in Ec. exists s.
        rewrite dict_get_set_other; auto.
  - repeat split; auto.
Qed.

(** X3: the registry operations keep the registry well formed: names are
    bound once, and every registered class is found under its name in the
    submapping of its kind.  This holds of the empty registry and is kept
    by [+=] and by [-=], whether they succeed or raise; for [+=] the class
    bound to the name, when it is the same object as the argument, is the
    argument. *)
Theorem registry_operations_keep_ok (self : Schema) (typ : PyClass) :
  registry_ok self ->
  (forall t, dict_get (s_all self) (c_name typ) = Some t ->
             same_object t typ = true -> t = typ) ->
  registry_ok (fst (Schema_iadd self typ))
  /\ registry_ok (fst (Schema_isub self typ)).
Proof.
  intros Hok Hid. split.
  - now apply iadd_keeps_registry_ok.
  - now apply isub_keeps_registry_ok.
Qed.

Lemma registry_operations_keep_ok_witness :
  registry_ok (fst (Schema_iadd registry_with_Int Boolean_class))
  /\ registry_ok (fst (Schema_isub registry_with_Int Boolean_class)).
Proof.
  apply registry_operations_keep_ok.
  - apply iadd_keeps_registry_ok; [apply registry_ok_empty|].
    intros t H. discriminate H.
  - intros t H. discriminate H.
Defined.

(** ** A registry built from a base *)

Lemma kinds_merge_fresh kinds k v :
  dict_get kinds k = None -> distinct_keys v ->
  kinds_merge kinds k v = kinds ++ [(k, v)].
Proof.
  intros Hk Hv. unfold kinds_merge, dict_setdefault. rewrite Hk.
  rewrite (@dict_set_absent _ kinds k [] Hk).
  rewrite dict_set_replace_last by exact Hk.
  now rewrite dict_update_nil.
Qed.

Lemma kinds_copy (base acc : dict (dict PyClass)) :
  distinct_keys (acc ++ base) ->
  (forall k sub, In (k, sub) base -> distinct_keys sub) ->
  fold_left (fun kinds kv => kinds_merge kinds (fst kv) (snd kv)) base acc
  = acc ++ base.
Proof.
  unfold distinct_keys, dict_keys. revert acc.
  induction base as [|[k v] r IH]; intros acc Hd Hsub; simpl.
  - now rewrite app_nil_r.
  - assert (Ha : dict_get acc k = None).
    { apply dict_get_None_keys. intros Hin.
      rewrite map_app in Hd. simpl in Hd.
      apply NoDup_remove_2 in Hd. apply Hd. apply in_or_app. now left. }
    rewrite kinds_merge_fresh; auto.
    + rewrite IH.
      * now rewrite <- app_assoc.
      * now rewrite <- app_assoc.
      * intros k' sub Hin. apply (Hsub k'). now right.
    + apply (Hsub k). now left.
Qed.

(** X4: a registry built from a well-formed base registry (the one given,
    or [global_schema] when none is given and it exists) is a new
    registry whose name table and kind index are those of the base at
    that moment, with an empty wrapper cache; it looks every name up as
    the base does, it is well formed, and the registries that existed are
    untouched. *)
Theorem derived_registry_snapshot (w : World) (base : option nat) (b : nat) :
  base = Some b \/ (base = None /\ w_next_schema w <> 0 /\ b = 0) ->
  registry_ok (schema_at w b) ->
  fst (Schema_init w base) = w_next_schema w
  /\ schema_at (snd (Schema_init w base)) (fst (Schema_init w base))
     = mkSchema (s_all (schema_at w b)) (s_kinds (schema_at w b)) []
  /\ (forall k, Schema_getitem
                  (schema_at (snd (Schema_init w base)) (fst (Schema_init w base))) k
                = Schema_getitem (schema_at w b) k)
  /\ registry_ok (schema_at (snd (Schema_init w base)) (fst (Schema_init w base)))
  /\ (forall r, r <> w_next_schema w ->
                schema_at (snd (Schema_init w base)) r = schema_at w r).
Proof.
  intros Hbase (Hall & Hkinds & Hsubs & Hcover).
  assert (Hnew : schema_at (snd (Schema_init w base)) (fst (Schema_init w base))
                 = mkSchema (s_all (schema_at w b)) (s_kinds (schema_at w b)) []).
  { unfold Schema_init, schema_at. simpl. rewrite Nat.eqb_refl.
    assert (Hb : match base with
                 | Some b0 => Some b0
                 | None => if Nat.eqb (w_next_schema w) 0 then None else Some 0
                 end = Some b).
    { destruct Hbase as [->|(-> & Hn & ->)]; auto.
      apply Nat.eqb_neq in Hn. now rewrite Hn. }
    rewrite Hb. unfold schema_at in *.
    rewrite dict_update_nil by exact Hall.
    rewrite kinds_copy; auto. }
  split; [reflexivity|]. split; [exact Hnew|]. rewrite Hnew.
  split; [reflexivity|]. split.
  - repeat split; auto.
  - intros r Hr. unfold Schema_init, schema_at. simpl.
    apply Nat.eqb_neq in Hr. now rewrite Hr.
Qed.

Lemma derived_registry_snapshot_witness :
  schema_at (snd (Schema_init sample_world None)) 1
  = mkSchema (s_all (schema_at sample_world 0))
             (s_kinds (schema_at sample_world 0)) [].
Proof.
  refine (proj1 (proj2 (@derived_registry_snapshot sample_world None 0 _ _))).
  - right. repeat split. discriminate.
  - apply iadd_keeps_registry_ok; [apply registry_ok_empty|].
    intros t H. discriminate H.
Defined.

(** ** More on the wrapper factory *)

Lemma make_wrapper_cache_other
      (wrap : gtype -> gtype) (w w1 : World) (t : pyobj) (c wr : PyClass) :
  BaseType_ensure t = Ok c ->
  make_wrapper wrap w t = Ok (wr, w1) ->
  forall r k, k <> type_name (wrap (c_type c)) ->
              dict_get (s_cache (schema_at w1 r)) k
              = dict_get (s_cache (schema_at w r)) k.
Proof.
  unfold make_wrapper. intros ->. cbn [bind].
  destruct (dict_get (s_cache (schema_at w (c_schema c)))
                     (type_name (wrap (c_type c)))) as [cached|].
  - intros H. now injection H as _ <-.
  - intros H. injection H as _ <-. unfold schema_at, set_schema. simpl.
    intros r k Hk. destruct (Nat.eqb r (c_schema c)) eqn:E; auto.
    apply Nat.eqb_eq in E. subst r. simpl.
    rewrite dict_get_set_other; auto.
Qed.

(** X5: building a wrapper registers nothing: the name table and the kind
    index of every registry are as before, no registry is created, every
    registry other than the one the base type was declared in is
    untouched, and in that one the cache changes at most under the
    wrapper's name. *)
Theorem make_wrapper_registers_nothing
        (wrap : gtype -> gtype) (w w1 : World) (t : pyobj) (c wr : PyClass) :
  BaseType_ensure t = Ok c ->
  make_wrapper wrap w t = Ok (wr, w1) ->
  w_next_schema w1 = w_next_schema w
  /\ (forall r, s_all (schema_at w1 r) = s_all (schema_at w r)
                /\ s_kinds (schema_at w1 r) = s_kinds (schema_at w r))
  /\ (forall r, r <> c_schema c -> schema_at w1 r = schema_at w r)
  /\ (forall r k, k <> type_name (wrap (c_type c)) ->
                  dict_get (s_cache (schema_at w1 r)) k
                  = dict_get (s_cache (schema_at w r)) k).
Proof.
  unfold make_wrapper. intros ->. cbn [bind].
  destruct (dict_get (s_cache (schema_at w (c_schema c)))
                     (type_name (wrap (c_type c)))) as [cached|].
  - intros H. injection H as _ <-. repeat split; auto.
  - intros H. injection H as _ <-. unfold schema_at, set_schema. simpl.
    split; [reflexivity|]. split; [|split].
    + intros r. destruct (Nat.eqb r (c_schema c)) eqn:E; auto.
      apply Nat.eqb_eq in E. subst r. auto.
    + intros r Hr. apply Nat.eqb_neq in Hr. now rewrite Hr.
    + intros r k Hk. destruct (Nat.eqb r (c_schema c)) eqn:E; auto.
      apply Nat.eqb_eq in E. subst r. simpl.
      rewrite dict_get_set_other; auto.
Qed.

Lemma make_wrapper_registers_nothing_witness :
  s_all (schema_at sample_world_wrapped 0) = s_all (schema_at sample_world 0)
  /\ s_kinds (schema_at sample_world_wrapped 0)
     = s_kinds (schema_at sample_world 0).
Proof.
  exact (proj1 (proj2 (@make_wrapper_registers_nothing TNonNull sample_world
           sample_world_wrapped (py_class Flags_class) Flags_class
           Flags_non_null eq_refl eq_refl)) 0).
Defined.

(** X6: the cache is keyed by the wrapper's name alone: for two classes of
    the same name declared in the same registry, once [non_null] (or
    [list_of]) has been called for the first, calling it for the second
    returns the wrapper of the first, and that wrapper, when the first
    call built it, denotes the wrapper of the first class. *)
Theorem same_name_classes_share_wrapper
        (w w1 : World) (t t' : pyobj) (c c' wr : PyClass)
        (wrap : gtype -> gtype) :
  wrap = TNonNull \/ wrap = TListOf ->
  BaseType_ensure t = Ok c ->
  BaseType_ensure t' = Ok c' ->
  c_name c' = c_name c ->
  c_schema c' = c_schema c ->
  make_wrapper wrap w t = Ok (wr, w1) ->
  make_wrapper wrap w1 t' = Ok (wr, w1)
  /\ (dict_get (s_cache (schema_at w (c_schema c))) (type_name (wrap (c_type c)))
      = None -> c_type wr = wrap (c_type c)).
Proof.
  intros Hwrap Hc Hc' Hname Hschema H.
  assert (Hn : type_name (wrap (c_type c')) = type_name (wrap (c_type c))).
  { unfold c_name in Hname. destruct Hwrap; subst wrap; simpl; now rewrite Hname. }
  split.
  - pose proof (make_wrapper_recorded wrap w t Hc H) as Hrec.
    unfold make_wrapper. rewrite Hc'. cbn [bind].
    rewrite Hschema, Hn, Hrec. reflexivity.
  - intros Hmiss. rewrite (make_wrapper_fresh wrap w t Hc Hmiss H). reflexivity.
Qed.

Lemma same_name_classes_share_wrapper_witness :
  non_null sample_world_wrapped (py_class (mkClass 6 0 (TEnum "Flags" ["A"])))
  = Ok (Flags_non_null, sample_world_wrapped).
Proof.
  exact (proj1 (@same_name_classes_share_wrapper sample_world sample_world_wrapped
           (py_class Flags_class) (py_class (mkClass 6 0 (TEnum "Flags" ["A"])))
           Flags_class (mkClass 6 0 (TEnum "Flags" ["A"])) Flags_non_null
           TNonNull (or_introl eq_refl) eq_refl eq_refl eq_refl eq_refl eq_refl)).
Defined.

Lemma append_bang_bracket (s s' : string) : (s ++ "!")%string <> (s' ++ "]")%string.
Proof.
  revert s'. induction s as [|a s IH]; intros [|b s']; simpl; intros H.
  - discriminate H.
  - injection H as _ H. destruct s'; discriminate H.
  - injection H as _ H. destruct s; discriminate H.
  - injection H as _ H. now apply IH in H.
Qed.

(** X7: the names under which [non_null] and [list_of] cache never
    coincide, so neither factory changes what the other finds in the
    cache, for whatever types they are called. *)
Theorem non_null_list_of_do_not_collide
        (w w1 : World) (t : pyobj) (c wr : PyClass) :
  BaseType_ensure t = Ok c ->
  (forall a b, type_name (TNonNull a) <> type_name (TListOf b))
  /\ (non_null w t = Ok (wr, w1) ->
      forall r b, dict_get (s_cache (schema_at w1 r)) (type_name (TListOf b))
                  = dict_get (s_cache (schema_at w r)) (type_name (TListOf b)))
  /\ (list_of w t = Ok (wr, w1) ->
      forall r a, dict_get (s_cache (schema_at w1 r)) (type_name (TNonNull a))
                  = dict_get (s_cache (schema_at w r)) (type_name (TNonNull a))).
Proof.
  intros Hc.
  assert (Hne : forall a b, type_name (TNonNull a) <> type_name (TListOf b)).
  { intros a b. simpl. intros H.
    destruct (type_name a) as [|x s]; simpl in H.
    - injection H as _ H. destruct (type_name b); discriminate H.
    - injection H as _ H. now apply append_bang_bracket in H. }
  split; [exact Hne|]. split; intros H r x.
  - apply (make_wrapper_cache_other TNonNull w t Hc H).
    apply not_eq_sym, Hne.
  - apply (make_wrapper_cache_other TListOf w t Hc H). apply Hne.
Qed.

Lemma non_null_list_of_do_not_collide_witness :
  dict_get (s_cache (schema_at sample_world_wrapped 0)) "[Flags]" = None.
Proof.
  exact (proj1 (proj2 (@non_null_list_of_do_not_collide sample_world
           sample_world_wrapped (py_class Flags_class) Flags_class
           Flags_non_null eq_refl)) eq_refl 0 Flags).
Defined.

(** ** What decoding an object materializes *)

Lemma set_field_keeps_attr cls_name json_data name f dec st st' k :
  set_field cls_name json_data name f dec st = Ok st' ->
  dict_get (fst st) k <> None -> dict_get (fst st') k <> None.
Proof.
  unfold set_field.
  destruct (py_contains json_data (field_graphql_name f)) as [[|]|e]; simpl;
    try discriminate.
  - destruct (py_getitem json_data (field_graphql_name f)) as [raw|e];
      [|discriminate].
    destruct (dec raw) as [x|e]; [|discriminate].
    intros H Hk. injection H as <-. simpl.
    destruct (String.eqb name k) eqn:E.
    + apply String.eqb_eq in E. subst. rewrite dict_get_set_same. discriminate.
    + apply String.eqb_neq in E. rewrite dict_get_set_other; auto.
  - intros H. now injection H as <-.
Qed.

Lemma set_fields_keeps_attr cls_name json_data entries st st' k :
  set_fields cls_name json_data entries st = Ok st' ->
  dict_get (fst st) k <> None -> dict_get (fst st') k <> None.
Proof.
  revert st. induction entries as [|[[name f] dec] r IH]; intros st; simpl.
  - intros H. now injection H as <-.
  - destruct (set_field cls_name json_data name f dec st) as [st1|e] eqn:E;
      simpl; [|discriminate].
    intros H Hk. apply (IH _ H). eapply set_field_keeps_attr; eauto.
Qed.

Lemma set_fields_sets_present cls_name d entries st st' name f dec raw :
  In (name, f, dec) entries ->
  dict_get d (field_graphql_name f) = Some raw ->
  set_fields cls_name (VDict d) entries st = Ok st' ->
  dict_get (fst st') name <> None.
Proof.
  revert st. induction entries as [|[[name0 f0] dec0] r IH]; intros st;
    simpl; [tauto|].
  intros [Hin|Hin] Hraw.
  - injection Hin as -> -> ->.
    destruct (set_field cls_name (VDict d) name f dec st) as [st1|e] eqn:E;
      simpl; [|discriminate].
    intros H. eapply set_fields_keeps_attr; [exact H|].
    revert E. unfold set_field. simpl. unfold dict_mem. rewrite Hraw. simpl.
    destruct (dec raw) as [x|e]; [|discriminate].
    intros E. injection E as <-. simpl. rewrite dict_get_set_same. discriminate.
  - destruct (set_field cls_name (VDict d) name0 f0 dec0 st) as [st1|e];
      simpl; [|discriminate].
    now apply IH.
Qed.

(** X8: after an object is decoded without a selection list by a class
    whose field table has distinct keys, each the name of its field, every
    field whose GraphQL name is bound in the object is readable under its
    name and holds what its type decoded from the bound value; every other
    field is unreadable; and the backing store is the object. *)
Theorem decode_sets_present_fields
        (nc : string -> value -> except value)
        (kind n : string) (fields : list (string * Field))
        (d : dict value) (inst : value) :
  NoDup (map fst fields) ->
  Forall (fun kf => fst kf = field_name (snd kf)) fields ->
  call nc (TContainer kind n fields) (VDict d) None = Ok inst ->
  backing_store inst = Some (VDict d)
  /\ forall name f,
      In (name, f) fields ->
      match dict_get d (field_graphql_name f) with
      | Some raw =>
          exists x, call0 nc (field_type f) raw = Ok x
                    /\ ContainerType_getattr inst name = Some x
                    /\ ContainerType_contains inst name = true
      | None =>
          ContainerType_getattr inst name = None
          /\ ContainerType_contains inst name = false
      end.
Proof.
  intros Hnd Hkeys. simpl. unfold ContainerType_init.
  destruct (set_fields n (VDict d) (class_entries nc fields) ([], []))
    as [[attrs cache]|e] eqn:E; simpl; [|discriminate].
  intros H. injection H as <-. split; [reflexivity|].
  assert (Hp : populated nc fields d (attrs, cache)).
  { exact (@set_fields_populated nc n fields d Hnd _ _ _
             (@init_entries_own nc fields None Hkeys)
             (populated_empty nc fields d) E). }
  destruct Hp as [Hc Ha]. simpl in Hc, Ha.
  intros name f Hin. simpl. unfold dict_mem.
  destruct (dict_get d (field_graphql_name f)) as [raw|] eqn:Eraw.
  - assert (Hset : dict_get attrs name <> None).
    { change attrs with (fst (attrs, cache)).
      eapply set_fields_sets_present; [|exact Eraw|exact E].
      unfold class_entries.
      rewrite Forall_forall in Hkeys. specialize (Hkeys _ Hin). simpl in Hkeys.
      apply in_map_iff. exists (name, f). simpl. split; auto.
      now rewrite <- Hkeys. }
    destruct (dict_get attrs name) as [x|] eqn:Ex; [|contradiction].
    destruct (Ha _ _ Ex) as [f' Hf'].
    destruct (Hc _ _ Hf') as (Hfields & raw' & x' & Hraw' & Hx' & Hg).
    assert (f' = f) by (eapply unique_key_same_value; eauto). subst f'.
    exists x. repeat split; auto. congruence.
  - destruct (dict_get attrs name) as [x|] eqn:Ex; auto.
    destruct (Ha _ _ Ex) as [f' Hf'].
    destruct (Hc _ _ Hf') as (Hfields & raw' & x' & Hraw' & _).
    assert (f' = f) by (eapply unique_key_same_value; eauto). subst f'.
    congruence.
Qed.

Lemma decode_sets_present_fields_witness :
  ContainerType_getattr flags_instance "admin" = Some (VBool false)
  /\ ContainerType_contains flags_instance "admin" = true.
Proof.
  destruct (proj2 (@decode_sets_present_fields plain_converters "type" "Flags"
              [("active", f_active); ("admin", f_admin)]
              [("active", VBool true); ("admin", VBool false)] flags_instance
              ltac:(repeat constructor; simpl; intuition discriminate)
              ltac:(repeat constructor) eq_refl)
             "admin" f_admin ltac:(simpl; auto)) as (x & Hx & Hget & Hin).
  split; [|exact Hin]. rewrite Hget. f_equal.
  simpl in Hx. now injection Hx as <-.
Defined.

Lemma set_fields_cache_keys (nc : string -> value -> except value)
      cls_name d (fs : list (string * Field)) st st' :
  set_fields cls_name (VDict d) (class_entries nc fs) st = Ok st' ->
  NoDup (dict_keys (snd st) ++ map (fun kf => field_name (snd kf)) fs) ->
  dict_keys (snd st')
  = dict_keys (snd st)
    ++ map (fun kf => field_name (snd kf))
           (filter (fun kf => dict_mem d (field_graphql_name (snd kf))) fs).
Proof.
  revert st. induction fs as [|[k f] r IH]; intros [attrs cache]; simpl.
  - intros H _. injection H as <-. simpl. now rewrite app_nil_r.
  - unfold set_field at 1. simpl py_contains. cbn [bind].
    destruct (dict_mem d (field_graphql_name f)) eqn:Em.
    + unfold dict_mem in Em. simpl py_getitem.
      destruct (dict_get d (field_graphql_name f)) as [raw|]; [|discriminate].
      destruct (call0 nc (field_type f) raw) as [x|e]; simpl; [|discriminate].
      intros H Hnd.
      assert (Habs : dict_get cache (field_name f) = None).
      { apply dict_get_None_keys. intros Hin.
        apply NoDup_remove_2 in Hnd. apply Hnd. apply in_or_app. now left. }
      apply IH in H; simpl in H |- *.
      * rewrite H. rewrite dict_set_absent by exact Habs.
        unfold dict_keys. rewrite map_app. simpl. now rewrite <- app_assoc.
      * rewrite dict_set_absent by exact Habs.
        unfold dict_keys in *. rewrite map_app. simpl. now rewrite <- app_assoc.
    + simpl. intros H Hnd. apply IH in H; auto. simpl.
      eapply NoDup_remove_1. exact Hnd.
Qed.

(** X9: after an object is decoded without a selection list by a class
    whose fields have distinct names, iterating the instance gives the
    names of the fields whose GraphQL name is bound in the object, in the
    order of the field table, and the length of the instance is their
    number. *)
Theorem decode_iterates_in_table_order
        (nc : string -> value -> except value)
        (kind n : string) (fields : list (string * Field))
        (d : dict value) (inst : value) :
  NoDup (map (fun kf => field_name (snd kf)) fields) ->
  call nc (TContainer kind n fields) (VDict d) None = Ok inst ->
  ContainerType_iter inst
  = map (fun kf => field_name (snd kf))
        (filter (fun kf => dict_mem d (field_graphql_name (snd kf))) fields)
  /\ ContainerType_len inst
     = List.length
         (filter (fun kf => dict_mem d (field_graphql_name (snd kf))) fields).
Proof.
  intros Hnd. simpl. unfold ContainerType_init.
  destruct (set_fields n (VDict d) (class_entries nc fields) ([], []))
    as [[attrs cache]|e] eqn:E; simpl; [|discriminate].
  intros H. injection H as <-.
  apply set_fields_cache_keys in E; [|exact Hnd]. simpl in E.
  unfold ContainerType_len. simpl. rewrite E. split; auto.
  now rewrite length_map.
Qed.

Lemma decode_iterates_in_table_order_witness :
  ContainerType_iter flags_instance = ["active"; "admin"]
  /\ ContainerType_len flags_instance = 2.
Proof.
  exact (@decode_iterates_in_table_order plain_converters "type" "Flags"
           [("active", f_active); ("admin", f_admin)]
           [("active", VBool true); ("admin", VBool false)] flags_instance
           ltac:(repeat constructor; simpl; intuition discriminate) eq_refl).
Defined.

(** ** What serializing an instance emits *)

Lemma walk_fields_keys attrs fs acc out :
  walk_fields attrs fs acc = Ok out ->
  forall k, dict_mem out k = true ->
            dict_mem acc k = true
            \/ exists name f, In (name, f) fs
                              /\ field_graphql_name f = k
                              /\ dict_mem attrs name = true.
Proof.
  revert acc. induction fs as [|[name f] r IH]; intros acc; simpl.
  - intros H. injection H as <-. auto.
  - unfold attr_to_json.
    destruct (dict_get attrs name) as [x|] eqn:Ex.
    + destruct (to_json x (field_type f)) as [j|e]; simpl; [|discriminate].
      intros H k Hk. destruct (IH _ H k Hk) as [Hacc|(n' & f' & Hin & Hw & Hm)].
      * destruct (String.eqb (field_graphql_name f) k) eqn:E.
        -- apply String.eqb_eq in E. right. exists name, f.
           unfold dict_mem. rewrite Ex. auto.
        -- apply String.eqb_neq in E. left. unfold dict_mem in *.
           rewrite dict_get_set_other in Hacc; auto.
      * right. exists n', f'. auto.
    + intros H k Hk. destruct (IH _ H k Hk) as [Hacc|(n' & f' & Hin & Hw & Hm)];
        auto.
      right. exists n', f'. auto.
Qed.

(** X10: the JSON form of an instance binds nothing but GraphQL names of
    fields of its class whose attribute is set; an attribute that is not
    the key of a field of the class never shows, whatever the cache and
    the backing store hold. *)
Theorem to_json_emits_class_fields_only
        cn cf attrs cache json_data sl kind n fs (out : dict value) :
  to_json (VInst cn cf attrs cache json_data sl) (TContainer kind n fs)
  = Ok (VDict out) ->
  forall k, dict_mem out k = true ->
            exists name f, In (name, f) cf
                           /\ field_graphql_name f = k
                           /\ dict_mem attrs name = true.
Proof.
  rewrite to_json_instance.
  destruct (walk_fields attrs cf []) as [d|e] eqn:E; simpl; [|discriminate].
  intros H. injection H as <-. intros k Hk.
  destruct (walk_fields_keys _ _ _ E k Hk) as [Hacc|H]; auto.
  discriminate Hacc.
Qed.

Lemma to_json_emits_class_fields_only_witness :
  exists name f,
    In (name, f) [("active", f_active); ("admin", f_admin)]
    /\ field_graphql_name f = "admin"
    /\ dict_mem [("active", VBool true); ("admin", VBool false);
                 ("note", VStr "x")] name = true.
Proof.
  exact (@to_json_emits_class_fields_only "Flags"
           [("active", f_active); ("admin", f_admin)]
           [("active", VBool true); ("admin", VBool false); ("note", VStr "x")]
           [("active", f_active); ("admin", f_admin)] flags_json None
           "type" "Flags" [("active", f_active); ("admin", f_admin)]
           [("active", VBool true); ("admin", VBool false)]
           eq_refl "admin" eq_refl).
Defined.

(** ** What assigning an attribute leaves alone *)

(** X11: assigning to a name other than [__json_data__],
    [__fields_cache__], [__selection_list__], [__class__], [__dict__]
    and [__weakref__] changes neither the class of the instance, nor its
    field cache (so neither its iteration nor its length), nor its
    selection list, nor any other attribute; when the backing store is a
    JSON object it stays one, only the GraphQL name of the cached field
    can be rebound in it, and it is left as it was when the assignment
    raises.  Assigning to [__fields_cache__] is what replaces the field
    cache: the instance dictionary binds it to the assigned value. *)
Theorem setattr_frame
        cn cf attrs cache json_data sl (name : string) (v : value) :
  (is_special name = false ->
   exists store',
     outcome_instance
       (ContainerType_setattr (VInst cn cf attrs cache json_data sl) name v)
     = Some (VInst cn cf (dict_set attrs name v) cache store' sl)
     /\ ContainerType_iter
          (VInst cn cf (dict_set attrs name v) cache store' sl)
        = dict_keys cache
     /\ (forall k, k <> name ->
                   ContainerType_getattr
                     (VInst cn cf (dict_set attrs name v) cache store' sl) k
                   = dict_get attrs k)
     /\ (forall d,
            json_data = VDict d ->
            exists d' r,
              ContainerType_setattr (VInst cn cf attrs cache json_data sl)
                                    name v
              = Finished (VInst cn cf (dict_set attrs name v) cache
                                (VDict d') sl) r
              /\ store' = VDict d'
              /\ (r <> None -> d' = d)
              /\ forall k,
                  (forall f, dict_get cache name = Some f ->
                             k <> field_graphql_name f) ->
                  dict_get d' k = dict_get d k))
  /\ exists r,
      ContainerType_setattr (VInst cn cf attrs cache json_data sl)
                            "__fields_cache__" v
      = SlotRebound "__fields_cache__" v
                    (Finished (VInst cn cf attrs cache json_data sl) r).
Proof.
  split; [|eexists; reflexivity].
  intros Hsp. rewrite setattr_plain_name by exact Hsp.
  unfold cached_json.
  assert (Hframe : forall store' k, k <> name ->
             ContainerType_getattr
               (VInst cn cf (dict_set attrs name v) cache store' sl) k
             = dict_get attrs k)
    by (intros store' k Hk; simpl; now apply dict_get_set_other).
  destruct (dict_get cache name) as [f|] eqn:Ec.
  - destruct (to_json v (field_type f)) as [jv|e].
    + unfold store_setitem. destruct json_data;
        try (eexists; split; [reflexivity|]; split; [reflexivity|];
             split; [apply Hframe|]; intros d0 Hd; discriminate Hd).
      eexists. split; [reflexivity|]. split; [reflexivity|].
      split; [apply Hframe|].
      intros d0 Hd. injection Hd as ->.
      eexists. exists None. split; [reflexivity|]. split; [reflexivity|].
      split; [congruence|].
      intros k Hk. apply dict_get_set_other. apply not_eq_sym.
      now apply Hk.
    + exists json_data. split; [reflexivity|]. split; [reflexivity|].
      split; [apply Hframe|].
      intros d0 ->. exists d0, (Some e). auto.
  - exists json_data. split; [reflexivity|]. split; [reflexivity|].
    split; [apply Hframe|].
    intros d0 ->. exists d0, None. auto.
Qed.

Lemma setattr_frame_witness :
  exists store',
    outcome_instance
      (ContainerType_setattr flags_instance "active" (VBool false))
    = Some (VInst "Flags" [("active", f_active); ("admin", f_admin)]
                  [("active", VBool false); ("admin", VBool false)]
                  [("active", f_active); ("admin", f_admin)] store' None)
    /\ ContainerType_iter
         (VInst "Flags" [("active", f_active); ("admin", f_admin)]
                [("active", VBool false); ("admin", VBool false)]
                [("active", f_active); ("admin", f_admin)] store' None)
       = ["active"; "admin"]
    /\ (forall k, k <> "active" ->
                  ContainerType_getattr
                    (VInst "Flags" [("active", f_active); ("admin", f_admin)]
                           [("active", VBool false); ("admin", VBool false)]
                           [("active", f_active); ("admin", f_admin)]
                           store' None) k
                  = dict_get [("active", VBool true); ("admin", VBool false)] k)
    /\ (forall d,
           flags_json = VDict d ->
           exists d' r,
             ContainerType_setattr flags_instance "active" (VBool false)
             = Finished
                 (VInst "Flags" [("active", f_active); ("admin", f_admin)]
                        [("active", VBool false); ("admin", VBool false)]
                        [("active", f_active); ("admin", f_admin)]
                        (VDict d') None) r
             /\ store' = VDict d'
             /\ (r <> None -> d' = d)
             /\ forall k,
                 (forall f,
                     dict_get [("active", f_active); ("admin", f_admin)]
                              "active" = Some f ->
                     k <> field_graphql_name f) ->
                 dict_get d' k = dict_get d k).
Proof.
  exact (proj1 (@setattr_frame "Flags" [("active", f_active); ("admin", f_admin)]
                  [("active", VBool true); ("admin", VBool false)]
                  [("active", f_active); ("admin", f_admin)]
                  flags_json None "active" (VBool false)) eq_refl).
Defined.

(** ** Decoding what is not an object *)

Lemma set_fields_not_indexable_result cls_name json_data entries st
      (found : string -> bool) :
  (forall k, py_contains json_data k = Ok (found k)) ->
  (forall k, exists e, py_getitem json_data k = Raise e) ->
  set_fields cls_name json_data entries st
  = if existsb (fun e => found (wire_of e)) entries
    then Raise UnboundLocalError else Ok st.
Proof.
  intros Hin Hget. induction entries as [|[[name f] dec] r IH]; simpl; auto.
  unfold set_field, wire_of at 1. simpl. rewrite Hin. simpl.
  destruct (found (field_graphql_name f)); simpl.
  - destruct (Hget (field_graphql_name f)) as [e ->]. reflexivity.
  - exact IH.
Qed.

(** X12: a container class called on JSON that is not an object: on a
    number or a boolean it raises a bare [TypeError] as soon as there is a
    field to look for; on a string (or an array) it raises
    [UnboundLocalError] when the GraphQL name of a field it looks for is
    a substring (an element) of the data, and otherwise returns an
    instance with nothing materialized whose backing store is that
    data. *)
Theorem decode_non_object
        (nc : string -> value -> except value)
        (kind n : string) (fields : list (string * Field))
        (sel : option (list Selection)) :
  (forall j, (exists b, j = VBool b) \/ (exists z, j = VInt z)
             \/ (exists x, j = VFloat x) ->
             init_entries nc fields sel <> [] ->
             call nc (TContainer kind n fields) j sel = Raise TypeError)
  /\ (forall s,
         call nc (TContainer kind n fields) (VStr s) sel
         = if existsb (fun e => str_contains (wire_of e) s)
                      (init_entries nc fields sel)
           then Raise UnboundLocalError
           else Ok (VInst n fields [] [] (VStr s) sel))
  /\ (forall l,
         call nc (TContainer kind n fields) (VList l) sel
         = if existsb (fun e => existsb (is_str (wire_of e)) l)
                      (init_entries nc fields sel)
           then Raise UnboundLocalError
           else Ok (VInst n fields [] [] (VList l) sel)).
Proof.
  split; [|split].
  - intros j Hj Hne. simpl. unfold ContainerType_init.
    destruct (init_entries nc fields sel) as [|[[name f] dec] r];
      [contradiction|].
    destruct Hj as [[b ->]|[[z ->]|[x ->]]]; reflexivity.
  - intros s. simpl. unfold ContainerType_init.
    rewrite (@set_fields_not_indexable_result n (VStr s) _ ([], [])
               (fun k => str_contains k s)); simpl; eauto.
    now destruct (existsb _ _).
  - intros l. simpl. unfold ContainerType_init.
    rewrite (@set_fields_not_indexable_result n (VList l) _ ([], [])
               (fun k => existsb (is_str k) l)); simpl; eauto.
    now destruct (existsb _ _).
Qed.

Lemma decode_non_object_witness :
  call plain_converters Flags (VInt 3) None = Raise TypeError.
Proof.
  refine (proj1 (@decode_non_object plain_converters "type" "Flags"
                   [("active", f_active); ("admin", f_admin)] None)
                (VInt 3) _ _).
  - right. left. exists 3%Z. reflexivity.
  - discriminate.
Defined.

(** ** Types that decode to their input *)

Lemma call_passes_through (nc : string -> value -> except value) (t : gtype) :
  forall raw sel, passes_through t raw = true ->
                  call nc t raw sel = call0 nc t raw.
Proof.
  induction t as [n c|n cs|n ts|k n fs|t IH|t IH]; intros raw sel Hp;
    simpl in Hp; try discriminate; try reflexivity.
  destruct raw; try discriminate; try reflexivity.
  simpl. f_equal.
  induction l as [|v r IHl]; simpl in *; auto.
  apply andb_prop in Hp. destruct Hp as [Hv Hr].
  now rewrite IH, IHl.
Qed.

(** X13: on a type built from the pass-through scalar, enums, [Boolean]
    and the two wrappers, applied to a value it passes through (for
    [Boolean], a boolean or null; under [list_of], an array of such
    values or null), a call that succeeds, with any selection list,
    returns the value it was given, and serializing that value gives it
    back. *)
Theorem decode_then_serialize_passes_through
        (nc : string -> value -> except value) (t : gtype)
        (raw x : value) (sel : option (list Selection)) :
  passes_through t raw = true ->
  call nc t raw sel = Ok x ->
  x = raw /\ to_json x t = Ok raw.
Proof.
  intros Hp Hc. rewrite call_passes_through in Hc by exact Hp.
  destruct (passes_through_roundtrip nc _ _ Hp Hc) as [-> Hj]. auto.
Qed.

Lemma decode_then_serialize_passes_through_witness :
  VList [VStr "A"; VStr "C"] = VList [VStr "A"; VStr "C"]
  /\ to_json (VList [VStr "A"; VStr "C"]) (TListOf (TNonNull Color))
     = Ok (VList [VStr "A"; VStr "C"]).
Proof.
  exact (@decode_then_serialize_passes_through plain_converters
           (TListOf (TNonNull Color)) (VList [VStr "A"; VStr "C"])
           (VList [VStr "A"; VStr "C"]) (Some select_active)
           eq_refl eq_refl).
Defined.

(** ** More on interface collection *)

Lemma class_in_app i l1 l2 :
  class_in i (l1 ++ l2) = class_in i l1 || class_in i l2.
Proof. unfold class_in. apply existsb_app. Qed.

Lemma class_in_same_id i j l :
  base_id i = base_id j -> class_in i l = class_in j l.
Proof. unfold class_in. now intros ->. Qed.

Lemma add_inherited_members i acc l :
  class_in i (add_inherited acc l) = class_in i acc || class_in i l.
Proof.
  unfold add_inherited. revert acc.
  induction l as [|x r IH]; intros acc; simpl.
  - now rewrite orb_false_r.
  - rewrite IH. destruct (class_in x acc) eqn:Ex.
    + destruct (Nat.eqb (base_id x) (base_id i)) eqn:E; simpl; auto.
      apply Nat.eqb_eq in E. rewrite (class_in_same_id _ _ _ E) in Ex.
      rewrite Ex. reflexivity.
    + rewrite class_in_app. simpl. rewrite orb_false_r. now rewrite orb_assoc.
Qed.

Lemma populate_fold_members (bases acc : list base_class) (i : base_class) :
  class_in i
    (fold_left
       (fun ifaces b =>
          add_inherited
            (if String.eqb (base_kind b) "interface" then ifaces ++ [b]
             else ifaces) (base_interfaces b)) bases acc)
  = class_in i acc
    || existsb (fun b =>
                  (String.eqb (base_kind b) "interface"
                   && Nat.eqb (base_id b) (base_id i))
                  || class_in i (base_interfaces b)) bases.
Proof.
  revert acc. induction bases as [|b r IH]; intros acc; simpl.
  - now rewrite orb_false_r.
  - rewrite IH, add_inherited_members.
    destruct (String.eqb (base_kind b) "interface"); simpl.
    + rewrite class_in_app. simpl. rewrite orb_false_r.
      now rewrite !orb_assoc.
    + now rewrite !orb_assoc.
Qed.

(** X14: the list built by [__populate_interfaces] holds, up to
    repetition, exactly the bases of kind interface and the interfaces
    that the bases implement: a class is in it if and only if it is such
    a base or is listed by a base. *)
Theorem populate_interfaces_members (bases : list base_class) (i : base_class) :
  class_in i (populate_interfaces bases)
  = existsb (fun b =>
               (String.eqb (base_kind b) "interface"
                && Nat.eqb (base_id b) (base_id i))
               || class_in i (base_interfaces b)) bases.
Proof.
  unfold populate_interfaces. now rewrite populate_fold_members.
Qed.

Lemma add_inherited_extends acc l : exists more, add_inherited acc l = acc ++ more.
Proof.
  unfold add_inherited. revert acc. induction l as [|x r IH]; intros acc; simpl.
  - exists []. now rewrite app_nil_r.
  - destruct (class_in x acc).
    + apply IH.
    + destruct (IH (acc ++ [x])) as [more ->]. exists (x :: more).
      now rewrite <- app_assoc.
Qed.

Lemma populate_fold_extends bases acc :
  exists more,
    fold_left
      (fun ifaces b =>
         add_inherited
           (if String.eqb (base_kind b) "interface" then ifaces ++ [b]
            else ifaces) (base_interfaces b)) bases acc
    = acc ++ more.
Proof.
  revert acc. induction bases as [|b r IH]; intros acc; simpl.
  - exists []. now rewrite app_nil_r.
  - destruct (add_inherited_extends
                (if String.eqb (base_kind b) "interface" then acc ++ [b] else acc)
                (base_interfaces b)) as [m1 ->].
    destruct (IH ((if String.eqb (base_kind b) "interface" then acc ++ [b]
                   else acc) ++ m1)) as [m2 ->].
    destruct (String.eqb (base_kind b) "interface").
    + exists ([b] ++ m1 ++ m2). now rewrite <- !app_assoc.
    + exists (m1 ++ m2). now rewrite <- !app_assoc.
Qed.

Lemma add_inherited_app acc l1 l2 :
  add_inherited acc (l1 ++ l2) = add_inherited (add_inherited acc l1) l2.
Proof. unfold add_inherited. apply fold_left_app. Qed.

Lemma specified_fold bases acc :
  add_inherited acc
    (flat_map (fun b =>
                 (if String.eqb (base_kind b) "interface" then [b] else [])
                 ++ base_interfaces b) bases)
  = fold_left
      (fun ifaces b =>
         add_inherited
           (if String.eqb (base_kind b) "interface"
            then (if class_in b ifaces then ifaces else ifaces ++ [b])
            else ifaces) (base_interfaces b)) bases acc.
Proof.
  revert acc. induction bases as [|b r IH]; intros acc; simpl; auto.
  rewrite !add_inherited_app, IH.
  destruct (String.eqb (base_kind b) "interface"); reflexivity.
Qed.

Lemma class_in_id i l : class_in i l = true -> In (base_id i) (map base_id l).
Proof.
  unfold class_in. rewrite existsb_exists. intros (j & Hj & E).
  apply Nat.eqb_eq in E. rewrite <- E. now apply in_map.
Qed.

Lemma populate_fold_as_specified bases acc :
  NoDup (map base_id
           (fold_left
              (fun ifaces b =>
                 add_inherited
                   (if String.eqb (base_kind b) "interface" then ifaces ++ [b]
                    else ifaces) (base_interfaces b)) bases acc)) ->
  fold_left
    (fun ifaces b =>
       add_inherited
         (if String.eqb (base_kind b) "interface" then ifaces ++ [b]
          else ifaces) (base_interfaces b)) bases acc
  = fold_left
      (fun ifaces b =>
         add_inherited
           (if String.eqb (base_kind b) "interface"
            then (if class_in b ifaces then ifaces else ifaces ++ [b])
            else ifaces) (base_interfaces b)) bases acc.
Proof.
  revert acc. induction bases as [|b r IH]; intros acc Hnd; simpl in *; auto.
  destruct (String.eqb (base_kind b) "interface") eqn:Ek; [|now apply IH].
  destruct (class_in b acc) eqn:Eb; [|now apply IH].
  exfalso.
  destruct (add_inherited_extends (acc ++ [b]) (base_interfaces b)) as [m1 H1].
  rewrite H1 in Hnd.
  destruct (populate_fold_extends r ((acc ++ [b]) ++ m1)) as [m2 H2].
  rewrite H2 in Hnd. rewrite <- !app_assoc, map_app in Hnd. simpl in Hnd.
  apply class_in_id in Eb.
  apply NoDup_remove_2 in Hnd. apply Hnd. apply in_or_app. now left.
Qed.

(** X15: whenever the list built by [__populate_interfaces] repeats no
    class, it is the specified list: the bases of kind interface and the
    interfaces of the bases, in order, each at its first position. *)
Theorem populate_interfaces_as_specified (bases : list base_class) :
  NoDup (map base_id (populate_interfaces bases)) ->
  populate_interfaces bases = interfaces_as_specified bases.
Proof.
  intros Hnd. unfold interfaces_as_specified, dedup_first.
  change (fold_left
            (fun acc i => if class_in i acc then acc else acc ++ [i])
            (flat_map (fun b =>
                 (if String.eqb (base_kind b) "interface" then [b] else [])
                 ++ base_interfaces b) bases) [])
    with (add_inherited []
            (flat_map (fun b =>
                 (if String.eqb (base_kind b) "interface" then [b] else [])
                 ++ base_interfaces b) bases)).
  rewrite specified_fold. now apply populate_fold_as_specified.
Qed.

Lemma populate_interfaces_as_specified_witness :
  populate_interfaces [Child_base] = interfaces_as_specified [Child_base].
Proof.
  apply populate_interfaces_as_specified.
  simpl. repeat constructor; simpl; intuition discriminate.
Defined.

(** ** Field inheritance *)

Lemma dict_update_get V (a b : dict V) k :
  distinct_keys b ->
  dict_get (dict_update a b) k
  = match dict_get b k with Some v => Some v | None => dict_get a k end.
Proof.
  unfold dict_update, distinct_keys, dict_keys. revert a.
  induction b as [|[k0 v0] r IH]; intros a Hd; simpl; auto.
  inversion Hd as [|x xs Hx Hxs]; subst.
  rewrite IH by exact Hxs.
  destruct (String.eqb k0 k) eqn:E.
  - apply String.eqb_eq in E. subst k0.
    assert (Hr : dict_get r k = None) by (now apply dict_get_None_keys).
    rewrite Hr. apply dict_get_set_same.
  - apply String.eqb_neq in E.
    destruct (dict_get r k); auto. now apply dict_get_set_other.
Qed.

Lemma dict_update_distinct V (a b : dict V) :
  distinct_keys a -> distinct_keys (dict_update a b).
Proof.
  unfold dict_update. revert a.
  induction b as [|[k v] r IH]; intros a Ha; simpl; auto.
  apply IH. now apply dict_set_distinct.
Qed.

Lemma dict_keys_mem V (d : dict V) k :
  existsb (String.eqb k) (dict_keys d) = dict_mem d k.
Proof.
  unfold dict_mem. induction d as [|[k' v] r IH]; simpl; auto.
  rewrite String.eqb_sym. destruct (String.eqb k' k); auto.
Qed.

Lemma dict_update_keys V (a b : dict V) :
  dict_keys (dict_update a b) = first_seen (dict_keys a) (dict_keys b).
Proof.
  unfold dict_update. revert a.
  induction b as [|[k v] r IH]; intros a; simpl; auto.
  rewrite IH. f_equal. rewrite dict_keys_mem. unfold dict_mem.
  destruct (dict_get a k) as [x|] eqn:E.
  - eapply dict_set_present_keys; eauto.
  - rewrite dict_set_absent by exact E. unfold dict_keys.
    rewrite map_app. reflexivity.
Qed.

Lemma first_seen_app seen l1 l2 :
  first_seen seen (l1 ++ l2) = first_seen (first_seen seen l1) l2.
Proof.
  revert seen. induction l1 as [|x r IH]; intros seen; simpl; auto.
Qed.

Lemma inherit_fields_from_spec (bases : list (dict Field)) (table : dict Field) :
  distinct_keys table ->
  Forall (@distinct_keys Field) bases ->
  exists out,
    inherit_fields_from table (map Some bases) = Ok out
    /\ distinct_keys out
    /\ (forall name, dict_get out name
                     = last_defined bases name (dict_get table name))
    /\ dict_keys out
       = first_seen (dict_keys table) (flat_map (@dict_keys Field) bases).
Proof.
  intros Ht Hb. revert table Ht.
  induction Hb as [|b r Hbd _ IH]; intros table Ht; simpl.
  - exists table. auto.
  - destruct (IH (dict_update table b) (dict_update_distinct _ Ht))
      as (out & Hout & Hd & Hget & Hkeys).
    exists out. split; [exact Hout|]. split; [exact Hd|]. split.
    + intros name. rewrite Hget. now rewrite dict_update_get.
    + rewrite Hkeys, dict_update_keys, first_seen_app. reflexivity.
Qed.

(** X16: field inheritance over container bases whose tables have distinct
    keys gives a table with distinct keys, in which each name is bound to
    the field of the last base that defines it, and in which the names
    stand in the order of their first appearance across the bases; a base
    without a field table makes it raise [AttributeError]. *)
Theorem inherit_fields_last_wins (bases : list (dict Field)) :
  Forall (@distinct_keys Field) bases ->
  (exists out,
      inherit_fields (map Some bases) = Ok out
      /\ distinct_keys out
      /\ (forall name, dict_get out name = last_defined bases name None)
      /\ dict_keys out = first_seen [] (flat_map (@dict_keys Field) bases))
  /\ forall others,
      inherit_fields (map Some bases ++ None :: others) = Raise AttributeError.
Proof.
  intros Hb. split.
  - apply inherit_fields_from_spec; [constructor|exact Hb].
  - intros others. unfold inherit_fields. generalize (@nil (string * Field)).
    induction bases as [|b r IH]; intros table; simpl; auto.
    apply IH. now inversion Hb.
Qed.

Lemma inherit_fields_last_wins_witness :
  exists out,
    inherit_fields [Some [("active", f_active); ("admin", f_admin)];
                    Some [("color", f_color);
                          ("active", mkField "active" "isActive" Boolean)]]
    = Ok out
    /\ dict_get out "active" = Some (mkField "active" "isActive" Boolean)
    /\ dict_keys out = ["active"; "admin"; "color"].
Proof.
  destruct (proj1 (@inherit_fields_last_wins
              [[("active", f_active); ("admin", f_admin)];
               [("color", f_color);
                ("active", mkField "active" "isActive" Boolean)]]
              ltac:(repeat constructor; simpl; intuition discriminate)))
    as (out & Hout & _ & Hget & Hkeys).
  exists out. split; [exact Hout|]. split.
  - rewrite Hget. reflexivity.
  - rewrite Hkeys. reflexivity.
Defined.

(** ** GraphQL names *)

Lemma split_underscore_nonempty s : split_underscore s <> [].
Proof.
  destruct s as [|c r]; simpl; [discriminate|].
  destruct (Ascii.eqb c "_"%char); [discriminate|].
  destruct (split_underscore r); discriminate.
Qed.

Lemma split_no_underscore s :
  has_underscore s = false -> split_underscore s = [s].
Proof.
  induction s as [|c r IH]; simpl; auto.
  destruct (Ascii.eqb c "_"%char); simpl; [discriminate|].
  intros H. now rewrite IH.
Qed.

Lemma has_underscore_app a b :
  has_underscore (a ++ b) = has_underscore a || has_underscore b.
Proof.
  induction a as [|c r IH]; simpl; auto.
  rewrite IH. now rewrite orb_assoc.
Qed.

Lemma to_upper_not_underscore c :
  Ascii.eqb c "_"%char = false -> Ascii.eqb (to_upper c) "_"%char = false.
Proof.
  destruct c as [[] [] [] [] [] [] [] []]; intros H; try exact H; reflexivity.
Qed.

Lemma to_lower_not_underscore c :
  Ascii.eqb c "_"%char = false -> Ascii.eqb (to_lower c) "_"%char = false.
Proof.
  destruct c as [[] [] [] [] [] [] [] []]; intros H; try exact H; reflexivity.
Qed.

Lemma title_from_no_underscore s b :
  has_underscore s = false -> has_underscore (title_from b s) = false.
Proof.
  revert b. induction s as [|c r IH]; intros b; simpl; auto.
  intros H. apply orb_false_elim in H. destruct H as [Hc Hr].
  rewrite IH by exact Hr. rewrite orb_false_r.
  destruct b; [now apply to_lower_not_underscore|now apply to_upper_not_underscore].
Qed.

Lemma title_from_length s b : String.length (title_from b s) = String.length s.
Proof.
  revert b. induction s as [|c r IH]; intros b; simpl; auto.
Qed.

Lemma split_parts_no_underscore s :
  Forall (fun p => has_underscore p = false) (split_underscore s).
Proof.
  induction s as [|c r IH]; simpl.
  - repeat constructor.
  - destruct (Ascii.eqb c "_"%char) eqn:E.
    + constructor; auto.
    + destruct (split_underscore r) as [|h t]; inversion IH; subst;
        constructor; simpl; auto; rewrite E; auto.
Qed.

Lemma concat_no_underscore l :
  Forall (fun p => has_underscore p = false) l ->
  has_underscore (String.concat "" l) = false.
Proof.
  induction l as [|p r IH]; simpl; auto.
  intros H. inversion H as [|x xs Hp Hr]; subst.
  destruct r as [|q r'].
  - exact Hp.
  - simpl. rewrite has_underscore_app. rewrite Hp. simpl. now apply IH.
Qed.

Lemma split_lengths s :
  fold_right (fun p n => String.length p + n) 0 (split_underscore s)
  + count_underscores s = String.length s.
Proof.
  induction s as [|c r IH]; simpl; auto.
  destruct (Ascii.eqb c "_"%char); simpl.
  - lia.
  - destruct (split_underscore r) as [|h t] eqn:E.
    + now apply split_underscore_nonempty in E.
    + simpl in *. lia.
Qed.

Lemma string_length_app (a b : string) :
  String.length (a ++ b) = String.length a + String.length b.
Proof. induction a as [|c r IH]; simpl; auto. Qed.

Lemma concat_length l :
  String.length (String.concat "" l)
  = fold_right (fun p n => String.length p + n) 0 l.
Proof.
  induction l as [|p r IH]; simpl; auto.
  destruct r as [|q r'].
  - simpl. lia.
  - simpl in *. rewrite string_length_app. simpl. now rewrite IH.
Qed.

(** X17: [_to_graphql_name] leaves a name without underscore as it is;
    its result holds no underscore, so applying it again changes nothing;
    and the result is as long as the name less its underscores. *)
Theorem to_graphql_name_camel (name : string) :
  (has_underscore name = false -> to_graphql_name name = name)
  /\ has_underscore (to_graphql_name name) = false
  /\ to_graphql_name (to_graphql_name name) = to_graphql_name name
  /\ String.length (to_graphql_name name) + count_underscores name
     = String.length name.
Proof.
  assert (H1 : forall s, has_underscore s = false -> to_graphql_name s = s).
  { intros s H. unfold to_graphql_name. rewrite split_no_underscore by exact H.
    simpl. reflexivity. }
  assert (H2 : has_underscore (to_graphql_name name) = false).
  { unfold to_graphql_name. apply concat_no_underscore.
    pose proof (split_parts_no_underscore name) as Hp.
    destruct (split_underscore name) as [|h t]; simpl.
    - constructor.
    - inversion Hp; subst. constructor; auto.
      apply Forall_map. eapply Forall_impl; [|eassumption].
      intros p Hq. now apply title_from_no_underscore. }
  split; [apply H1|]. split; [exact H2|]. split; [now apply H1|].
  unfold to_graphql_name. rewrite concat_length.
  rewrite <- (split_lengths name).
  destruct (split_underscore name) as [|h t]; simpl; auto.
  f_equal. f_equal.
  induction t as [|p r IH]; simpl; auto.
  unfold str_title at 1. now rewrite title_from_length, IH.
Qed.

Lemma to_graphql_name_camel_witness :
  to_graphql_name "id" = "id"
  /\ to_graphql_name "a_field_name" = "aFieldName".
Proof.
  split.
  - exact (proj1 (to_graphql_name_camel "id") eq_refl).
  - reflexivity.
Defined.

(** X18: the GraphQL name of an item is fixed by its first attachment:
    once [_set_container] has left the item with a non-empty GraphQL
    name (given explicitly, or derived from the first name), attaching it
    again under any other name changes its name, registry and container
    but not its GraphQL name. *)
Theorem set_container_first_wins
        (self : BaseItem) (schema schema' : nat) (container container' : PyClass)
        (name name' g : string) :
  item_graphql_name (BaseItem_set_container self schema container name) = Some g ->
  g <> "" ->
  BaseItem_set_container
    (BaseItem_set_container self schema container name)
    schema' container' name'
  = mkItem (item_type self) (Some g) (Some name') (Some schema') (Some container')
  /\ (no_graphql_name (item_graphql_name self) = false ->
      item_graphql_name self = Some g)
  /\ (no_graphql_name (item_graphql_name self) = true ->
      g = to_graphql_name name).
Proof.
  unfold BaseItem_set_container. simpl. intros Hg Hne.
  rewrite Hg. simpl.
  destruct (String.eqb g "") eqn:E; [apply String.eqb_eq in E; contradiction|].
  split; [reflexivity|].
  destruct (no_graphql_name (item_graphql_name self)); split; intros H;
    try discriminate; congruence.
Qed.

Lemma set_container_first_wins_witness :
  BaseItem_set_container
    (BaseItem_set_container (mkItem Boolean_class None None None None)
                            0 Flags_class "is_active")
    0 Flags_class "other_name"
  = mkItem Boolean_class (Some "isActive") (Some "other_name") (Some 0)
           (Some Flags_class).
Proof.
  refine (proj1 (@set_container_first_wins
                   (mkItem Boolean_class None None None None)
                   0 0 Flags_class Flags_class "is_active" "other_name"
                   "isActive" eq_refl _)).
  discriminate.
Defined.

(** ** Enumerations *)

Lemma existsb_is_str choices v :
  existsb (fun c => is_str c v) choices = true
  <-> exists s, v = VStr s /\ In s choices.
Proof.
  rewrite existsb_exists. split.
  - intros (c & Hin & Hc). destruct v; try discriminate.
    simpl in Hc. apply String.eqb_eq in Hc. subst. eauto.
  - intros (s & -> & Hin). exists s. split; auto. simpl. apply String.eqb_refl.
Qed.

(** X19: an enumeration, called with any selection list, returns its
    argument unchanged exactly when the argument is null or a string
    among its choices, and raises the [ValueError] naming the class and
    the value on anything else; under [non_null] it accepts exactly the
    choices. *)
Theorem enum_accepts_exactly_choices
        (nc : string -> value -> except value)
        (n : string) (choices : list string) (v : value)
        (sel : option (list Selection)) :
  (v = VNone \/ (exists s, v = VStr s /\ In s choices) ->
   call nc (TEnum n choices) v sel = Ok v)
  /\ (v <> VNone -> ~ (exists s, v = VStr s /\ In s choices) ->
      call nc (TEnum n choices) v sel = Raise (ValueError_enum n v))
  /\ ((exists s, v = VStr s /\ In s choices) <->
      call nc (TNonNull (TEnum n choices)) v sel = Ok v).
Proof.
  assert (Hok : (exists s, v = VStr s /\ In s choices) ->
                call nc (TEnum n choices) v sel = Ok v).
  { intros H. pose proof (proj2 (existsb_is_str choices v) H) as Hb.
    destruct H as (s & -> & _). simpl. simpl in Hb. now rewrite Hb. }
  assert (Hno : v <> VNone -> ~ (exists s, v = VStr s /\ In s choices) ->
                call nc (TEnum n choices) v sel = Raise (ValueError_enum n v)).
  { intros Hv H. simpl. unfold Enum_new.
    destruct (existsb (fun c => is_str c v) choices) eqn:Hb.
    - apply existsb_is_str in Hb. contradiction.
    - destruct v; auto. contradiction. }
  split; [|split; [exact Hno|]].
  - intros [->|H]; [reflexivity|now apply Hok].
  - split.
    + intros H. generalize (Hok H). destruct H as (s & -> & _). simpl. auto.
    + intros H.
      destruct (existsb (fun c => is_str c v) choices) eqn:Hb;
        [now apply existsb_is_str|].
      exfalso. destruct v; simpl in H, Hb; unfold Enum_new in H;
        try rewrite Hb in H; discriminate H.
Qed.

Lemma enum_accepts_exactly_choices_witness :
  call plain_converters Color (VStr "B") None = Ok (VStr "B")
  /\ call plain_converters Color (VStr "D") None
     = Raise (ValueError_enum "Color" (VStr "D")).
Proof.
  split.
  - refine (proj1 (@enum_accepts_exactly_choices plain_converters "Color"
                     ["A"; "B"; "C"] (VStr "B") None) _).
    right. exists "B". simpl. auto.
  - refine (proj1 (proj2 (@enum_accepts_exactly_choices plain_converters "Color"
                     ["A"; "B"; "C"] (VStr "D") None)) _ _).
    + discriminate.
    + intros (s & H & Hin). injection H as <-. simpl in Hin.
      intuition discriminate.
Defined.

(** ** Decoding with a selection list *)





(** ** The backing store and the JSON form after an assignment *)

Lemma walk_fields_untouched attrs fs acc out k :
  walk_fields attrs fs acc = Ok out ->
  (forall n g, In (n, g) fs -> field_graphql_name g <> k) ->
  dict_get out k = dict_get acc k.
Proof.
  revert acc. induction fs as [|[n0 f0] r IH]; intros acc; simpl.
  - intros H _. now injection H as <-.
  - intros H Hne.
    assert (Hr : forall n g, In (n, g) r -> field_graphql_name g <> k)
      by (intros n g Hin; apply (Hne n g); now right).
    destruct (attr_to_json attrs n0 (field_type f0)) as [[j|e]|];
      simpl in H; try discriminate.
    + rewrite (IH _ H Hr). apply dict_get_set_other. apply (Hne n0 f0). now left.
    + exact (IH _ H Hr).
Qed.

Lemma walk_fields_binds attrs fs acc out name f x :
  walk_fields attrs fs acc = Ok out ->
  NoDup (map (fun nf => field_graphql_name (snd nf)) fs) ->
  In (name, f) fs ->
  dict_get attrs name = Some x ->
  exists jv, to_json x (field_type f) = Ok jv
             /\ dict_get out (field_graphql_name f) = Some jv.
Proof.
  revert acc. induction fs as [|[n0 f0] r IH]; intros acc; simpl; [tauto|].
  intros H Hnd Hin Hx. inversion Hnd as [|w ws Hw Hws]; subst.
  destruct Hin as [Heq|Hin].
  - injection Heq as -> ->. unfold attr_to_json in H. rewrite Hx in H.
    destruct (to_json x (field_type f)) as [jv|e]; simpl in H; [|discriminate].
    exists jv. split; auto.
    rewrite (walk_fields_untouched _ _ _ H).
    + apply dict_get_set_same.
    + intros n g Hg Heq. apply Hw. rewrite <- Heq.
      change (field_graphql_name g)
        with ((fun nf : string * Field => field_graphql_name (snd nf)) (n, g)).
      now apply in_map.
  - destruct (attr_to_json attrs n0 (field_type f0)) as [[j|e]|];
      simpl in H; try discriminate; eapply IH; eauto.
Qed.

(** X21: on an instance whose backing store is a JSON object and whose
    class gives its fields distinct GraphQL names, take a field of the
    class that is cached under its own name, the name being none of
    [__json_data__], [__fields_cache__], [__selection_list__],
    [__class__], [__dict__] and [__weakref__], and a value that the type
    of the field converts.  Assigning the value to the name raises
    nothing, and afterwards the backing store binds the GraphQL name of
    the field to the converted value, and so does the JSON form of the
    instance whenever it has one. *)
Theorem setattr_store_agrees_with_json
        cn cf attrs cache d sl (name : string) (f : Field) (v jv : value) :
  is_special name = false ->
  NoDup (map (fun nf => field_graphql_name (snd nf)) cf) ->
  In (name, f) cf ->
  dict_get cache name = Some f ->
  to_json v (field_type f) = Ok jv ->
  exists self' d',
    ContainerType_setattr (VInst cn cf attrs cache (VDict d) sl) name v
    = Finished self' None
    /\ backing_store self' = Some (VDict d')
    /\ dict_get d' (field_graphql_name f) = Some jv
    /\ forall kind n fs out,
        to_json self' (TContainer kind n fs) = Ok (VDict out) ->
        dict_get out (field_graphql_name f) = Some jv.
Proof.
  intros Hsp Hnd Hin Hc Hj. rewrite setattr_plain_name by exact Hsp.
  unfold cached_json. rewrite Hc, Hj. simpl.
  eexists. eexists. split; [reflexivity|]. split; [reflexivity|]. split.
  - apply dict_get_set_same.
  - intros kind n fs out. rewrite to_json_instance.
    destruct (walk_fields (dict_set attrs name v) cf []) as [o|e] eqn:Ew;
      simpl; [|discriminate].
    intros H. injection H as <-.
    destruct (@walk_fields_binds _ _ _ _ name f v Ew Hnd Hin
                (dict_get_set_same _ _ _))
      as (jv' & Hj' & Hout).
    congruence.
Qed.

Lemma setattr_store_agrees_with_json_witness :
  exists self' d',
    ContainerType_setattr holder_instance "flags" flags_swapped
    = Finished self' None
    /\ backing_store self' = Some (VDict d')
    /\ dict_get d' "flags"
       = Some (VDict [("active", VBool false); ("admin", VBool true)])
    /\ forall kind n fs out,
        to_json self' (TContainer kind n fs) = Ok (VDict out) ->
        dict_get out "flags"
        = Some (VDict [("active", VBool false); ("admin", VBool true)]).
Proof.
  refine (@setattr_store_agrees_with_json "Holder" [("flags", f_flags)]
            [("flags", flags_instance)] [("flags", f_flags)]
            [("flags", flags_json)] None "flags" f_flags flags_swapped
            (VDict [("active", VBool false); ("admin", VBool true)])
            eq_refl _ _ eq_refl eq_refl).
  - repeat constructor; simpl; intuition discriminate.
  - simpl. auto.
Defined.
